(** * Prompt dispatch and token-limit recovery of [ProjectWindow]

    A shallow embedding of the dispatch / recovery methods of
    [src/project_window/project_window.py] (class [ProjectWindow]):
    [send_prompt], [handle_token_limit_error], [retry_with_summary],
    [retry_with_auto_summary], [show_token_limit_dialog],
    [retry_with_truncated_story], [cleanup_worker] and [stop_llm].

    Python methods become functions in a state-and-exception monad over a
    record holding the attributes and widget contents the methods read and
    write.  Calls into collaborators (message boxes, the worker thread, the
    aggregator, the summarizer, timers, the dialog) are recorded, in call
    order, in a trace that is part of the state. *)

From Stdlib Require Import ZArith NArith Lia.
From stdpp Require Import base option list strings gmap.

Local Open Scope Z_scope.

(** ** Python text *)

(** A Python [str] is a sequence of Unicode code points. *)
Definition pystr : Type := list N.

(** [str.isspace] on one code point: the code points CPython classifies as
    white space. *)
Definition isspace (c : N) : bool :=
  (((9 <=? c) && (c <=? 13)) || ((28 <=? c) && (c <=? 32))
   || (c =? 133) || (c =? 160) || (c =? 5760)
   || ((8192 <=? c) && (c <=? 8202))
   || (c =? 8232) || (c =? 8233) || (c =? 8239) || (c =? 8287)
   || (c =? 12288))%N.

Fixpoint lstrip (s : pystr) : pystr :=
  match s with
  | [] => []
  | c :: r => if isspace c then lstrip r else s
  end.

Definition rstrip (s : pystr) : pystr := rev (lstrip (rev s)).

(** [s.strip()] *)
Definition strip (s : pystr) : pystr := rstrip (lstrip s).

(** ** Python values stored in the dictionaries the methods consult *)

Inductive pyval : Type :=
| PNone
| PInt (n : Z)
| PStr (s : pystr).

(** Truth value of an object, as [if], [and], [or] and [not] take it. *)
Definition truthy (v : pyval) : bool :=
  match v with
  | PNone => false
  | PInt n => negb (n =? 0)
  | PStr s => match s with [] => false | _ => true end
  end.

(** [d.get(key, default)] and [d.get(key)] on a [dict] with string keys. *)
Definition dict_get (d : gmap string pyval) (key : string) (dflt : pyval) : pyval :=
  default dflt (d !! key).

(** [a or b] *)
Definition py_or (a b : pyval) : pyval := if truthy a then a else b.

(** ** Slices *)

(** [l[i:]] for an integer [i]: a negative index counts from the end, and
    the bound is clamped to the list. *)
Definition slice_from {A : Type} (i : Z) (l : list A) : list A :=
  let n := Z.of_nat (length l) in
  let j := if i <? 0 then Z.max 0 (i + n) else Z.min i n in
  drop (Z.to_nat j) l.

(** [int(x * 0.5)] for an integer [x]: the product is the float [x / 2]
    (exact while [|x| <= 2^53]) and [int] truncates towards zero. *)
Definition int_half (x : Z) : Z := Z.quot x 2.

(** ** Exceptions *)

Inductive exn : Type := AttributeError | KeyError | TypeError.

(** [prose_config.get("max_tokens", 2000) * 0.5] followed by [int(...)]:
    only a number can be multiplied by a float. *)
Definition half_budget (v : pyval) : exn + Z :=
  match v with
  | PInt n => inr (int_half n)
  | PNone | PStr _ => inl TypeError
  end.

(** ** The worker thread object

    [LLMWorker] (module [settings.llm_worker]) is a [QThread] with three
    signals.  The window only constructs it, connects its signals, and calls
    [start], [stop], [isRunning], [wait], [disconnect] and [deleteLater]. *)

Inductive signal : Type := Sig_data_received | Sig_finished | Sig_token_limit_exceeded.

(** The bound methods of the window that are connected as slots. *)
Inductive slot : Type :=
| Slot_update_text
| Slot_on_finished
| Slot_cleanup_worker
| Slot_handle_token_limit_error
| Slot_show_token_limit_dialog.

#[projections(primitive)]
Record LLMWorker : Type := mkWorker {
  wid : nat;                               (* identity, as [id(self.worker)] *)
  w_prompt : pystr;                        (* first constructor argument *)
  w_config : option (gmap string pyval);   (* second constructor argument *)
  data_received : list slot;
  finished : list slot;
  token_limit_exceeded : list slot;
  running : bool;                          (* [isRunning()] *)
  stop_requested : bool;                   (* [stop()] was called *)
  halts_in : option N;                     (* ms until [run] returns; [None]: it does not *)
  delete_later : bool                      (* [deleteLater()] was called *)
}.

Definition connections (sg : signal) (w : LLMWorker) : list slot :=
  match sg with
  | Sig_data_received => data_received w
  | Sig_finished => finished w
  | Sig_token_limit_exceeded => token_limit_exceeded w
  end.

Definition set_connections (sg : signal) (l : list slot) (w : LLMWorker) : LLMWorker :=
  match sg with
  | Sig_data_received =>
      mkWorker (wid w) (w_prompt w) (w_config w) l (finished w) (token_limit_exceeded w)
               (running w) (stop_requested w) (halts_in w) (delete_later w)
  | Sig_finished =>
      mkWorker (wid w) (w_prompt w) (w_config w) (data_received w) l (token_limit_exceeded w)
               (running w) (stop_requested w) (halts_in w) (delete_later w)
  | Sig_token_limit_exceeded =>
      mkWorker (wid w) (w_prompt w) (w_config w) (data_received w) (finished w) l
               (running w) (stop_requested w) (halts_in w) (delete_later w)
  end.

Definition set_running (b : bool) (h : option N) (w : LLMWorker) : LLMWorker :=
  mkWorker (wid w) (w_prompt w) (w_config w) (data_received w) (finished w)
           (token_limit_exceeded w) b (stop_requested w) h (delete_later w).

Definition set_stop_requested (w : LLMWorker) : LLMWorker :=
  mkWorker (wid w) (w_prompt w) (w_config w) (data_received w) (finished w)
           (token_limit_exceeded w) (running w) true (halts_in w) (delete_later w).

Definition set_delete_later (w : LLMWorker) : LLMWorker :=
  mkWorker (wid w) (w_prompt w) (w_config w) (data_received w) (finished w)
           (token_limit_exceeded w) (running w) (stop_requested w) (halts_in w) true.

(** [QThread.wait(ms)]: blocks the caller until the thread has finished or
    [ms] milliseconds have passed, whichever comes first.  Returns the
    worker afterwards and the time the caller was blocked. *)
Definition thread_wait (ms : N) (w : LLMWorker) : LLMWorker * N :=
  if running w then
    match halts_in w with
    | Some d => if (d <=? ms)%N then (set_running false (Some 0%N) w, d)
                else (set_running true (Some (d - ms)%N) w, ms)
    | None => (w, ms)
    end
  else (w, 0%N).

(** A worker all of whose signals have a receiver, as every worker the
    window creates has from its construction until [cleanup_worker]. *)
Definition wired (w : LLMWorker) : Prop :=
  data_received w <> [] /\ finished w <> [] /\ token_limit_exceeded w <> [].


(** ** Calls into collaborators *)

Inductive callback : Type := Callback_retry_with_auto_summary.

Inductive event : Type :=
| MessageBoxWarning (title text : string)
| MessageBoxCritical (title : string)
| LogError (text : string)
| LogWarningNotStopped (w : nat)
| AssembleFinalPrompt
| ProcessEvents
| WorkerCreate (w : nat)
| WorkerConnect (w : nat) (sg : signal) (sl : slot)
| WorkerStart (w : nat)
| WorkerStop (w : nat)
| WorkerWait (w : nat) (ms : N)
| WorkerTerminate (w : nat)
| WorkerDisconnect (w : nat) (sg : signal)
| WorkerDeleteLater (w : nat)
| AggregatorInterrupt
| StatusMessage (text : string)
| CreateSummary
| TimerSingleShot (ms : N) (cb : callback)
| TokenLimitDialogExec (error_msg partial_output : pystr) (max_tokens : pyval).

(** ** The window *)

(** [tiktoken]'s encoding object. *)
Record Encoding : Type := mkEncoding {
  encode : pystr -> list nat;
  decode : list nat -> pystr
}.

(** The current item of the project tree: its depth ([get_item_level]:
    act 0, chapter 1, scene 2) and the dictionary stored on it under
    [Qt.UserRole]. *)
Record TreeItem : Type := mkItem {
  item_level : Z;
  item_data : gmap string pyval
}.

(** [self.model.settings], of which the methods read three entries. *)
Record Settings : Type := mkSettings {
  global_pov : pyval;
  global_pov_character : pyval;
  global_tense : pyval
}.

#[projections(primitive)]
Record ProjectWindow : Type := mkWindow {
  (* attributes of the instance *)
  worker : option LLMWorker;               (* [self.worker] *)
  encoding : option Encoding;              (* [self.encoding], when bound *)
  (* worker objects the window no longer references *)
  detached : list LLMWorker;
  created : nat;                           (* workers constructed so far *)
  (* [self.bottom_stack] *)
  prompt_input : pystr;
  preview_text : pystr;
  preview_read_only : bool;
  send_enabled : bool;
  prose_prompt : option (gmap string pyval);   (* [prose_prompt_panel.get_prompt()] *)
  prose_overrides : option (gmap string pyval);(* [prose_prompt_panel.get_overrides()] *)
  additional_vars : gmap string pyval;         (* [get_additional_vars()] *)
  selected_context : pyval;                (* [context_panel.get_selected_context_text()] *)
  (* editor, tree, model *)
  editor_text : pystr;                     (* [scene_editor.editor.toPlainText()] *)
  current_item : option TreeItem;          (* [project_tree.tree.currentItem()] *)
  settings : Settings;
  (* what the caller observes *)
  trace : list event;                      (* collaborator calls, oldest first *)
  blocked_ms : N                           (* time spent blocked in [wait] *)
}.

Definition set_worker (x : option LLMWorker) (s : ProjectWindow) : ProjectWindow :=
  mkWindow x (encoding s) (detached s) (created s) (prompt_input s) (preview_text s)
           (preview_read_only s) (send_enabled s) (prose_prompt s) (prose_overrides s)
           (additional_vars s) (selected_context s) (editor_text s) (current_item s)
           (settings s) (trace s) (blocked_ms s).

Definition set_detached (x : list LLMWorker) (s : ProjectWindow) : ProjectWindow :=
  mkWindow (worker s) (encoding s) x (created s) (prompt_input s) (preview_text s)
           (preview_read_only s) (send_enabled s) (prose_prompt s) (prose_overrides s)
           (additional_vars s) (selected_context s) (editor_text s) (current_item s)
           (settings s) (trace s) (blocked_ms s).

Definition set_created (x : nat) (s : ProjectWindow) : ProjectWindow :=
  mkWindow (worker s) (encoding s) (detached s) x (prompt_input s) (preview_text s)
           (preview_read_only s) (send_enabled s) (prose_prompt s) (prose_overrides s)
           (additional_vars s) (selected_context s) (editor_text s) (current_item s)
           (settings s) (trace s) (blocked_ms s).

Definition set_preview_text (x : pystr) (s : ProjectWindow) : ProjectWindow :=
  mkWindow (worker s) (encoding s) (detached s) (created s) (prompt_input s) x
           (preview_read_only s) (send_enabled s) (prose_prompt s) (prose_overrides s)
           (additional_vars s) (selected_context s) (editor_text s) (current_item s)
           (settings s) (trace s) (blocked_ms s).

Definition set_preview_read_only (x : bool) (s : ProjectWindow) : ProjectWindow :=
  mkWindow (worker s) (encoding s) (detached s) (created s) (prompt_input s) (preview_text s)
           x (send_enabled s) (prose_prompt s) (prose_overrides s)
           (additional_vars s) (selected_context s) (editor_text s) (current_item s)
           (settings s) (trace s) (blocked_ms s).

Definition set_send_enabled (x : bool) (s : ProjectWindow) : ProjectWindow :=
  mkWindow (worker s) (encoding s) (detached s) (created s) (prompt_input s) (preview_text s)
           (preview_read_only s) x (prose_prompt s) (prose_overrides s)
           (additional_vars s) (selected_context s) (editor_text s) (current_item s)
           (settings s) (trace s) (blocked_ms s).

Definition set_trace (x : list event) (s : ProjectWindow) : ProjectWindow :=
  mkWindow (worker s) (encoding s) (detached s) (created s) (prompt_input s) (preview_text s)
           (preview_read_only s) (send_enabled s) (prose_prompt s) (prose_overrides s)
           (additional_vars s) (selected_context s) (editor_text s) (current_item s)
           (settings s) x (blocked_ms s).

Definition set_blocked_ms (x : N) (s : ProjectWindow) : ProjectWindow :=
  mkWindow (worker s) (encoding s) (detached s) (created s) (prompt_input s) (preview_text s)
           (preview_read_only s) (send_enabled s) (prose_prompt s) (prose_overrides s)
           (additional_vars s) (selected_context s) (editor_text s) (current_item s)
           (settings s) (trace s) x.

(** Append one collaborator call to the trace. *)
Definition record (e : event) (s : ProjectWindow) : ProjectWindow :=
  set_trace (trace s ++ [e]) s.

(** Whatever worker the window references has all its signals connected. *)
Definition window_wired (s : ProjectWindow) : Prop :=
  match worker s with
  | Some w => wired w
  | None => True
  end.

(** ** Methods: state passing with exceptions

    A method maps the window to the window it leaves and says whether it
    returned or raised.  The calls on the worker thread, the aggregator and
    the widgets return normally, as their Qt contracts have it; the one
    exception the class itself provides for, [TypeError] from
    [disconnect()] on a signal without connections, is modelled, as are the
    failures of attribute and item lookups on the objects the methods
    read. *)

Inductive outcome : Type :=
| Done (s : ProjectWindow)                 (* the method returned *)
| Raised (e : exn) (s : ProjectWindow).    (* the method raised [e] *)

Definition method : Type := ProjectWindow -> outcome.

Definition call (f : ProjectWindow -> ProjectWindow) : method := fun s => Done (f s).

Definition andthen (m k : method) : method :=
  fun s => match m s with
           | Done s' => k s'
           | Raised e s' => Raised e s'
           end.

(** A method body: statements run in order; the first exception ends it. *)
Fixpoint block (body : list method) : method :=
  match body with
  | [] => Done
  | m :: rest => andthen m (block rest)
  end.

(** [try: body  except <class>: handler] *)
Definition try_except (body : method) (catches : exn -> bool) (handler : method) : method :=
  fun s => match body s with
           | Done s' => Done s'
           | Raised e s' => if catches e then handler s' else Raised e s'
           end.

Definition is_TypeError (e : exn) : bool :=
  match e with TypeError => true | _ => false end.

(** Every exception of the model derives from [Exception]. *)
Definition is_Exception (e : exn) : bool := true.

(** The window a method leaves behind, however it ends. *)
Definition state_of (o : outcome) : ProjectWindow :=
  match o with
  | Done s => s
  | Raised _ s => s
  end.

(** [if cond: body] *)
Definition when (cond : ProjectWindow -> bool) (body : method) : method :=
  fun s => if cond s then body s else Done s.

(** A method call on [self.worker]; on [None] the attribute lookup fails. *)
Definition with_worker (k : LLMWorker -> ProjectWindow -> ProjectWindow) : method :=
  fun s => match worker s with
           | Some w => Done (k w s)
           | None => Raised AttributeError s
           end.

Definition has_worker (s : ProjectWindow) : bool :=
  match worker s with Some _ => true | None => false end.

(** [self.worker and self.worker.isRunning()] *)
Definition worker_is_running (s : ProjectWindow) : bool :=
  match worker s with Some w => running w | None => false end.

Definition worker_stop : method :=
  with_worker (fun w s => record (WorkerStop (wid w)) (set_worker (Some (set_stop_requested w)) s)).

Definition worker_wait (ms : N) : method :=
  with_worker (fun w s =>
    record (WorkerWait (wid w) ms)
      (set_blocked_ms (blocked_ms s + snd (thread_wait ms w))%N
         (set_worker (Some (fst (thread_wait ms w))) s))).

(** [signal.disconnect()] without arguments removes every connection and
    raises [TypeError] when there is none. *)
Definition worker_disconnect (sg : signal) : method :=
  fun s => match worker s with
           | None => Raised AttributeError s
           | Some w =>
               match connections sg w with
               | [] => Raised TypeError s
               | _ :: _ => Done (record (WorkerDisconnect (wid w) sg)
                                   (set_worker (Some (set_connections sg [] w)) s))
               end
           end.

Definition worker_deleteLater : method :=
  with_worker (fun w s => record (WorkerDeleteLater (wid w)) (set_worker (Some (set_delete_later w)) s)).

Definition worker_connect (sg : signal) (sl : slot) : method :=
  with_worker (fun w s =>
    record (WorkerConnect (wid w) sg sl)
      (set_worker (Some (set_connections sg (connections sg w ++ [sl]) w)) s)).

Definition log_not_stopped : method :=
  with_worker (fun w s => record (LogWarningNotStopped (wid w)) s).

(** [self.worker = x]: the object referenced before stays alive, no longer
    referenced by the window. *)
Definition assign_worker (x : option LLMWorker) (s : ProjectWindow) : ProjectWindow :=
  set_worker x (set_detached (option_list (worker s) ++ detached s) s).

(** First argument of [prompt_handler.assemble_final_prompt]: [send_prompt]
    passes the prompt configuration, [retry_with_summary] its ["text"]. *)
Inductive prompt_arg : Type :=
| PromptConfig (d : gmap string pyval)
| PromptValue (v : pyval).

(** What the user does while the modal [TokenLimitDialog] runs. *)
Inductive user_choice : Type :=
| Dismiss
| UseSummary (text : pystr)     (* emits [use_summary(text)] *)
| TruncateStory.                (* emits [truncate_story()] *)

(** ** Word count and item paths *)

(** [s.split()]: the maximal runs of non-space characters, in order.
    [word] holds, reversed, the run being read. *)
Fixpoint split_from (word : pystr) (s : pystr) : list pystr :=
  match s with
  | [] => match word with [] => [] | _ :: _ => [rev word] end
  | c :: r =>
      if isspace c then
        match word with
        | [] => split_from [] r
        | _ :: _ => rev word :: split_from [] r
        end
      else split_from (c :: word) r
  end.

Definition split (s : pystr) : list pystr := split_from [] s.

(** The number [on_editor_text_changed] shows: [len(text.split())]. *)
Definition word_count (text : pystr) : nat := length (split text).

(** A [QTreeWidgetItem] as [get_item_hierarchy] sees it: its text in
    column 0 and its parent, [None] for a top-level item. *)
Inductive TreeNode : Type :=
| TopLevel (text : pystr)
| Child (text : pystr) (parent : TreeNode).

(** The loop of [get_item_hierarchy]: [hierarchy.insert(0, ...)] on the way
    up to the root. *)
Fixpoint hierarchy_loop (current : TreeNode) (hierarchy : list pystr) : list pystr :=
  match current with
  | TopLevel text => strip text :: hierarchy
  | Child text parent => hierarchy_loop parent (strip text :: hierarchy)
  end.

Definition get_item_hierarchy (item : TreeNode) : list pystr := hierarchy_loop item [].

(** ** Project structure and the content view *)

(** A value read from the project's JSON files. *)
#[warnings="-register-all"]
Inductive jval : Type :=
| JNull
| JNum (n : Z)
| JStr (s : pystr)
| JList (items : list jval)
| JDict (entries : list (pystr * jval)).

(** The exceptions of the content view. *)
Inductive pyerror : Type := E_AttributeError | E_KeyError | E_TypeError | E_IndexError.

(** A dictionary key written as an ASCII literal. *)
Definition key (literal : string) : pystr :=
  map (fun a => N.of_nat (Ascii.nat_of_ascii a)) (String.list_ascii_of_string literal).

Fixpoint assoc (k : pystr) (entries : list (pystr * jval)) : option jval :=
  match entries with
  | [] => None
  | (k', v) :: rest => if bool_decide (k = k') then Some v else assoc k rest
  end.

(** [v.get(k, dflt)]: only a [dict] has the method. *)
Definition py_get (v : jval) (k : pystr) (dflt : jval) : pyerror + jval :=
  match v with
  | JDict entries => inr (default dflt (assoc k entries))
  | _ => inl E_AttributeError
  end.

(** [v[k]] for a string [k]. *)
Definition py_index (v : jval) (k : pystr) : pyerror + jval :=
  match v with
  | JDict entries =>
      match assoc k entries with
      | Some x => inr x
      | None => inl E_KeyError
      end
  | _ => inl E_TypeError
  end.

(** [for x in v]: the elements of a list, the characters of a string, the
    keys of a dictionary. *)
Definition py_iter (v : jval) : pyerror + list jval :=
  match v with
  | JList items => inr items
  | JStr s => inr (map (fun c => JStr [c]) s)
  | JDict entries => inr (map (fun e => JStr (fst e)) entries)
  | JNull | JNum _ => inl E_TypeError
  end.

Definition and_then {A B : Type} (m : pyerror + A) (k : A -> pyerror + B) : pyerror + B :=
  match m with
  | inl e => inl e
  | inr a => k a
  end.

(** A loop or comprehension that builds a list; the first exception ends it. *)
Fixpoint for_each {A B : Type} (f : A -> pyerror + B) (l : list A) : pyerror + list B :=
  match l with
  | [] => inr []
  | x :: rest =>
      and_then (f x) (fun y => and_then (for_each f rest) (fun ys => inr (y :: ys)))
  end.

(** [for idx, x in enumerate(l)], counting from [idx]. *)
Fixpoint for_each_indexed {A B : Type} (f : nat -> A -> pyerror + B) (idx : nat)
  (l : list A) : pyerror + list B :=
  match l with
  | [] => inr []
  | x :: rest =>
      and_then (f idx x)
        (fun y => and_then (for_each_indexed f (S idx) rest) (fun ys => inr (y :: ys)))
  end.

Definition scene_name (scene : jval) : pyerror + jval :=
  py_get scene (key "name") (JStr []).

Definition chapter_entry (chapter : jval) : pyerror + jval :=
  and_then (py_get chapter (key "scenes") (JList [])) (fun scenes_value =>
  and_then (py_iter scenes_value) (fun scenes_list =>
  and_then (for_each scene_name scenes_list) (fun scenes =>
  and_then (py_get chapter (key "name") (JStr [])) (fun name =>
  inr (JDict [(key "name", name); (key "scenes", JList scenes)]))))).

Definition act_entry (act : jval) : pyerror + jval :=
  and_then (py_get act (key "chapters") (JList [])) (fun chapters_value =>
  and_then (py_iter chapters_value) (fun chapters_list =>
  and_then (for_each chapter_entry chapters_list) (fun chapters =>
  and_then (py_get act (key "name") (JStr [])) (fun name =>
  inr (JDict [(key "name", name); (key "chapters", JList chapters)]))))).

(** [ProjectWindow._get_content_view_data], on [self.model.structure]. *)
Definition get_content_view_data (structure : jval) : pyerror + list jval :=
  and_then (py_get structure (key "acts") (JList [])) (fun acts_value =>
  and_then (py_iter acts_value) (fun acts =>
  for_each act_entry acts)).

(** [SceneWidget.COLORS] *)
Definition COLORS : list string :=
  ["#f8d7da"; "#d4edda"; "#d1ecf1"; "#fff3cd"; "#d6d8d9"]%string.

(** [COLORS[index % len(COLORS)]] *)
Definition scene_color (index : nat) : pyerror + string :=
  match COLORS !! (index mod length COLORS)%nat with
  | Some c => inr c
  | None => inl E_IndexError
  end.

(** [QLabel(text)]: the argument is a string, or [None] for a label
    without text. *)
Definition qlabel (text : jval) : pyerror + pystr :=
  match text with
  | JStr s => inr s
  | JNull => inr []
  | _ => inl E_TypeError
  end.

Record SceneWidget : Type := mkSceneWidget {
  scene_label : pystr;
  scene_background : string
}.

Record ChapterWidget : Type := mkChapterWidget {
  chapter_title : jval;                 (* shown as [f"<b>{name}</b>"] *)
  chapter_scenes : list SceneWidget
}.

Record ActWidget : Type := mkActWidget {
  act_title : jval;                     (* shown as [f"<h2>{name}</h2>"] *)
  act_chapters : list ChapterWidget
}.

Record ContentViewPanel : Type := mkContentViewPanel {
  act_widgets : list ActWidget;
  thumbnails : list pystr
}.

(** [SceneWidget.__init__(name, index)] *)
Definition new_SceneWidget (index : nat) (name : jval) : pyerror + SceneWidget :=
  and_then (qlabel name) (fun label =>
  and_then (scene_color index) (fun color =>
  inr (mkSceneWidget label color))).

(** [ChapterWidget.__init__(name, scenes)] *)
Definition new_ChapterWidget (name scenes : jval) : pyerror + ChapterWidget :=
  and_then (py_iter scenes) (fun scenes_list =>
  and_then (for_each_indexed new_SceneWidget 0 scenes_list) (fun widgets =>
  inr (mkChapterWidget name widgets))).

(** [ActWidget.__init__(name, chapters)] *)
Definition new_ActWidget (name chapters : jval) : pyerror + ActWidget :=
  and_then (py_iter chapters) (fun chapters_list =>
  and_then (for_each
              (fun chap =>
                 and_then (py_index chap (key "name")) (fun chap_name =>
                 and_then (py_index chap (key "scenes")) (fun chap_scenes =>
                 new_ChapterWidget chap_name chap_scenes)))
              chapters_list) (fun widgets =>
  inr (mkActWidget name widgets))).

(** The thumbnail labels of one act. *)
Definition act_thumbnails (act : jval) : pyerror + list pystr :=
  and_then (py_index act (key "chapters")) (fun chapters =>
  and_then (py_iter chapters) (fun chapters_list =>
  for_each (fun chap => and_then (py_index chap (key "name")) qlabel) chapters_list)).

(** [ContentViewPanel.__init__(data)] with [init_ui]. *)
Definition new_ContentViewPanel (data : list jval) : pyerror + ContentViewPanel :=
  and_then (for_each
              (fun act =>
                 and_then (py_index act (key "name")) (fun act_name =>
                 and_then (py_index act (key "chapters")) (fun act_chapters =>
                 new_ActWidget act_name act_chapters)))
              data) (fun acts =>
  and_then (for_each act_thumbnails data) (fun thumbs =>
  inr (mkContentViewPanel acts (concat thumbs)))).

(** The list stored under [k], where there is one. *)
Definition children (v : jval) (k : pystr) : list jval :=
  match v with
  | JDict entries =>
      match assoc k entries with
      | Some (JList items) => items
      | _ => []
      end
  | _ => []
  end.

Definition is_text (v : jval) : Prop := exists s, v = JStr s.

(** A dictionary whose entry [k], if present, has the shape [P]. *)
Definition optional_entry (v : jval) (k : pystr) (P : jval -> Prop) : Prop :=
  exists entries, v = JDict entries /\
    match assoc k entries with
    | Some x => P x
    | None => True
    end.

Definition is_list_of (P : jval -> Prop) (v : jval) : Prop :=
  exists items, v = JList items /\ Forall P items.

(** A project structure as the application writes it: acts holding
    chapters holding scenes, names being strings where present. *)
Definition scene_typed (scene : jval) : Prop :=
  optional_entry scene (key "name") is_text.

Definition chapter_typed (chapter : jval) : Prop :=
  optional_entry chapter (key "name") is_text /\
  optional_entry chapter (key "scenes") (is_list_of scene_typed).

Definition act_typed (act : jval) : Prop :=
  optional_entry act (key "name") (fun _ => True) /\
  optional_entry act (key "chapters") (is_list_of chapter_typed).

Definition structure_typed (structure : jval) : Prop :=
  optional_entry structure (key "acts") (is_list_of act_typed).

(** What the widgets make of one chapter entry. *)
Definition chapter_built (chapter entry : jval) : Prop :=
  (exists w,
      and_then (py_index entry (key "name")) (fun chap_name =>
      and_then (py_index entry (key "scenes")) (fun chap_scenes =>
      new_ChapterWidget chap_name chap_scenes)) = inr w /\
      length (chapter_scenes w) = length (children chapter (key "scenes"))) /\
  (exists label, and_then (py_index entry (key "name")) qlabel = inr label).

(** What the panel makes of one act entry. *)
Definition act_built (act entry : jval) : Prop :=
  (exists w,
      and_then (py_index entry (key "name")) (fun act_name =>
      and_then (py_index entry (key "chapters")) (fun act_chapters =>
      new_ActWidget act_name act_chapters)) = inr w /\
      map (fun c => length (chapter_scenes c)) (act_chapters w) =
        map (fun c => length (children c (key "scenes"))) (children act (key "chapters"))) /\
  (exists labels,
      act_thumbnails entry = inr labels /\
      length labels = length (children act (key "chapters"))).

Definition raises_at_most_TypeError {A : Type} (r : pyerror + A) : Prop :=
  match r with
  | inl e => e = E_TypeError
  | inr _ => True
  end.


Definition chapter_shaped (entry : jval) : Prop :=
  exists name scenes, entry = JDict [(key "name", name); (key "scenes", JList scenes)].

Definition act_shaped (entry : jval) : Prop :=
  exists name chapters,
    entry = JDict [(key "name", name); (key "chapters", JList chapters)] /\
    Forall chapter_shaped chapters.

(** ** The POV character dropdown *)

(** A [QComboBox]: its items and the index of the current one, [-1] when
    there is none. *)
Record ComboBox : Type := mkCombo {
  combo_items : list pystr;
  combo_index : Z
}.

(** [combo.findText(text)]: the index of the first item equal to [text],
    or [-1]. *)
Fixpoint find_from (text : pystr) (items : list pystr) (i : Z) : Z :=
  match items with
  | [] => -1
  | x :: rest => if bool_decide (x = text) then i else find_from text rest (i + 1)
  end.

Definition findText (combo : ComboBox) (text : pystr) : Z :=
  find_from text (combo_items combo) 0.

Definition count (combo : ComboBox) : Z := Z.of_nat (length (combo_items combo)).

(** [combo.itemText(i)]: empty for an index out of range. *)
Definition itemText (combo : ComboBox) (i : Z) : pystr :=
  if (0 <=? i) then default [] (combo_items combo !! Z.to_nat i) else [].

Definition currentText (combo : ComboBox) : pystr := itemText combo (combo_index combo).

(** [combo.setCurrentIndex(i)]: an index out of range clears the selection. *)
Definition setCurrentIndex (i : Z) (combo : ComboBox) : ComboBox :=
  mkCombo (combo_items combo) (if (0 <=? i) && (i <? count combo) then i else -1).

(** [combo.insertItem(0, text)]: the current item stays the same one. *)
Definition insertItem_front (text : pystr) (combo : ComboBox) : ComboBox :=
  mkCombo (text :: combo_items combo)
          (if 0 <=? combo_index combo then combo_index combo + 1 else combo_index combo).

(** [x.strip()] and [x.lower()] exist on strings only. *)
Definition py_strip (v : jval) : pyerror + pystr :=
  match v with
  | JStr s => inr (strip s)
  | _ => inl E_AttributeError
  end.

(** ** Saving the scene and closing the window *)

(** Calls that leave the window, in call order. *)
Inductive save_call : Type :=
| SaveScene (hierarchy : list pystr) (content : pystr) (expected_project : bool)
| SaveStatus (message : string)           (* [update_save_status] *)
| SaveWarning (title text : string)
| AutosaveTimerStop
| WriteSettings
| EventAccept
| EventIgnore.

(** The part of the window the save and close methods use. *)
Record Editing : Type := mkEditing {
  tree_current : option TreeNode;          (* [project_tree.tree.currentItem()] *)
  editor_html : pystr;                     (* [scene_editor.editor.toHtml()] *)
  unsaved_changes : bool;                  (* [self.model.unsaved_changes] *)
  unsaved_preview : bool;                  (* [self.unsaved_preview] *)
  autosave_timer : option bool;            (* bound? then [isActive()] *)
  save_calls : list save_call
}.

Definition called (c : save_call) (s : Editing) : Editing :=
  mkEditing (tree_current s) (editor_html s) (unsaved_changes s) (unsaved_preview s)
            (autosave_timer s) (save_calls s ++ [c]).

Definition set_unsaved_changes (b : bool) (s : Editing) : Editing :=
  mkEditing (tree_current s) (editor_html s) b (unsaved_preview s)
            (autosave_timer s) (save_calls s).

(** ** The constructor, and small collaborators to run the methods on *)

(** [ProjectWindow.__init__] binds [self.worker = None] and leaves
    [encoding] unbound; the widget contents are the arguments here. *)
Definition new_window (beats editor : pystr) (item : option TreeItem)
  (prose_config overrides : option (gmap string pyval)) : ProjectWindow :=
  mkWindow None None [] 0 beats [] false true prose_config overrides ∅ PNone
           editor item (mkSettings PNone PNone PNone) [] 0.

(** An assembler that joins the action beats and the context text. *)
Definition demo_assemble (template : prompt_arg) (beats : pystr)
  (vars : gmap string pyval) (context extra : pyval) : pystr :=
  beats ++ match context with PStr t => t | _ => [] end.

Definition demo_gettext (msgid : string) : pystr := [].

(** One token per code point. *)
Definition demo_encoding : Encoding := mkEncoding (map N.to_nat) (map N.of_nat).

Definition demo_thread_exit (n : nat) : option N := Some 100%N.

Definition demo_config (max_tokens : Z) : gmap string pyval :=
  <["text" := PStr [87%N]]> (<["max_tokens" := PInt max_tokens]> ∅).

(** "Go" as action beats, "Hi!" in the editor. *)
Definition demo_beats : pystr := [71%N; 111%N].
Definition demo_story : pystr := [72%N; 105%N; 33%N].

(** A chapter (level 1) and a scene (level 2), each storing the synopsis "S". *)
Definition demo_chapter : TreeItem := mkItem 1 (<["summary" := PStr [83%N]]> ∅).
Definition demo_scene : TreeItem := mkItem 2 (<["summary" := PStr [83%N]]> ∅).

Definition chapter_window : ProjectWindow :=
  new_window demo_beats demo_story (Some demo_chapter) (Some (demo_config 2000)) None.

Definition scene_window : ProjectWindow :=
  new_window demo_beats demo_story (Some demo_scene) (Some (demo_config 2000)) None.

(** Only a space and a newline as action beats. *)
Definition blank_window : ProjectWindow :=
  new_window [32%N; 10%N] demo_story (Some demo_scene) (Some (demo_config 2000)) None.

(** A token budget of 1, whose half truncates to 0. *)
Definition tiny_budget_window : ProjectWindow :=
  new_window demo_beats demo_story (Some demo_scene) (Some (demo_config 1)) None.

(** A window holding a running worker whose thread never returns. *)
Definition hung_worker : LLMWorker :=
  mkWorker 0 demo_beats None
    [Slot_update_text] [Slot_on_finished; Slot_cleanup_worker]
    [Slot_handle_token_limit_error] true false None false.

Definition busy_window : ProjectWindow :=
  mkWindow (Some hung_worker) None [] 1 demo_beats [] true false
           (Some (demo_config 2000)) None ∅ PNone demo_story (Some demo_scene)
           (mkSettings PNone PNone PNone) [] 0.

(** The running worker of [busy_window] with a chapter selected. *)
Definition busy_chapter_window : ProjectWindow :=
  mkWindow (Some hung_worker) None [] 1 demo_beats [] true false
           (Some (demo_config 2000)) None ∅ PNone demo_story (Some demo_chapter)
           (mkSettings PNone PNone PNone) [] 0.

(** A finished worker of which only [finished] is still connected. *)
Definition idle_worker : LLMWorker :=
  mkWorker 0 demo_beats None [] [Slot_on_finished] [] false false (Some 0%N) false.

Definition idle_window : ProjectWindow :=
  mkWindow (Some idle_worker) None [] 1 demo_beats [] false true
           (Some (demo_config 2000)) None ∅ PNone demo_story (Some demo_scene)
           (mkSettings PNone PNone PNone) [] 0.

(** A prompt whose ["max_tokens"] is [None]. *)
Definition unset_budget_window : ProjectWindow :=
  new_window demo_beats demo_story (Some demo_scene)
             (Some (<["max_tokens" := PNone]> (demo_config 2000))) None.

(** One act with one chapter of two scenes, the second without a name. *)
Definition demo_structure : jval :=
  JDict [(key "acts",
          JList [JDict [(key "name", JStr (key "Act 1"));
                         (key "chapters",
                          JList [JDict [(key "name", JStr (key "Chapter 1"));
                                         (key "scenes",
                                          JList [JDict [(key "name", JStr (key "Scene 1"))];
                                                 JDict []])]])]])].

Section Methods.

(** Collaborators outside the class. *)
Variable assemble_final_prompt :
  prompt_arg -> pystr -> gmap string pyval -> pyval -> pyval -> pystr.
Variable gettext : string -> pystr.                            (* [_] *)
Variable cl100k_base : Encoding.       (* [tiktoken.get_encoding("cl100k_base")] *)
Variable processEvents : ProjectWindow -> ProjectWindow.       (* pending Qt events *)
Variable thread_exit : nat -> option N.  (* how long the n-th worker's thread runs on *)
Variable render_html : pystr -> pystr.   (* the preview after [setHtml] *)

Definition worker_start : method :=
  with_worker (fun w s =>
    record (WorkerStart (wid w)) (set_worker (Some (set_running true (thread_exit (wid w)) w)) s)).

(** [self.worker = LLMWorker(final_prompt, config)] *)
Definition construct_worker (final_prompt : pystr) (config : option (gmap string pyval))
  : method :=
  call (fun s =>
    record (WorkerCreate (created s))
      (assign_worker
         (Some (mkWorker (created s) final_prompt config [] [] [] false false None false))
         (set_created (S (created s)) s))).

Definition update_text (text : pystr) : method :=
  call (fun s => set_preview_text (preview_text s ++ text) s).

Definition cleanup_worker : method :=
  try_except
    (when has_worker
       (block
          [ when worker_is_running
              (block [ worker_stop;
                       worker_wait 5000;
                       when worker_is_running log_not_stopped ]);
            try_except
              (block [ worker_disconnect Sig_data_received;
                       worker_disconnect Sig_finished;
                       worker_disconnect Sig_token_limit_exceeded ])
              is_TypeError
              Done;
            worker_deleteLater;
            call (assign_worker None) ]))
    is_Exception
    (block [ call (record (LogError "Error cleaning up LLMWorker"));
             call (record (MessageBoxCritical "Thread Error")) ]).

Definition on_finished : method :=
  block
    [ call (set_send_enabled true);
      call (set_preview_read_only false);
      fun s =>
        match strip (preview_text s) with
        | [] => Done (record (MessageBoxWarning "LLM Response"
                  "The LLM did not return any text. Possible token limit reached or an error occurred.") s)
        | _ :: _ => Done (set_preview_text (render_html (preview_text s)) s)
        end ].

Definition stop_llm : method :=
  try_except
    (block
       [ when worker_is_running
           (block [ worker_stop; call (record AggregatorInterrupt) ]);
         call (set_send_enabled true);
         call (set_preview_read_only false);
         cleanup_worker ])
    is_Exception
    (block [ call (record (LogError "Error in stop_llm"));
             call (record (MessageBoxCritical "Error")) ]).

(** [not prose_config]: [None] and the empty dictionary are false. *)
Definition config_selected (c : option (gmap string pyval)) : bool :=
  match c with
  | None => false
  | Some d => negb (bool_decide (d = ∅))
  end.

(** The four [connect] calls and [start] that follow each construction. *)
Definition wire_and_start (token_limit_slot : slot) : method :=
  block
    [ worker_connect Sig_data_received Slot_update_text;
      worker_connect Sig_finished Slot_on_finished;
      worker_connect Sig_finished Slot_cleanup_worker;
      worker_connect Sig_token_limit_exceeded token_limit_slot;
      worker_start ].

Definition current_scene_text (s : ProjectWindow) : pyval :=
  match current_item s with
  | Some it => if 2 <=? item_level it then PStr (strip (editor_text s)) else PNone
  | None => PNone
  end.

Definition send_prompt : method :=
  fun s =>
    let action_beats := strip (prompt_input s) in
    match action_beats with
    | [] => Done (record (MessageBoxWarning "LLM Prompt"
                            "Please enter some action beats before sending.") s)
    | _ :: _ =>
        match prose_prompt s with
        | Some prose_config =>
            if config_selected (Some prose_config) then
              let overrides := prose_overrides s in
              let final_prompt :=
                assemble_final_prompt (PromptConfig prose_config) action_beats
                  (additional_vars s) (current_scene_text s) (selected_context s) in
              block
                [ call (record AssembleFinalPrompt);
                  call (set_preview_text []);
                  call (set_send_enabled false);
                  call (set_preview_read_only true);
                  call (fun s => processEvents (record ProcessEvents s));
                  stop_llm;
                  construct_worker final_prompt overrides;
                  wire_and_start Slot_handle_token_limit_error ] s
            else Done (record (MessageBoxWarning "LLM Prompt" "Please select a prompt.") s)
        | None => Done (record (MessageBoxWarning "LLM Prompt" "Please select a prompt.") s)
        end
    end.

Definition retry_additional_vars (s : ProjectWindow) : gmap string pyval :=
  <["pov" := py_or (global_pov (settings s)) (PStr (gettext "Third Person"))]>
    (<["pov_character" := py_or (global_pov_character (settings s)) (PStr (gettext "Character"))]>
       (<["tense" := py_or (global_tense (settings s)) (PStr (gettext "Present Tense"))]> ∅)).

Definition retry_with_summary (summary : pyval) : method :=
  fun s =>
    let additional_vars := retry_additional_vars s in
    let action_beats := strip (prompt_input s) in
    match prose_prompt s with
    | None => Raised AttributeError s           (* [prose_config.get] on [None] *)
    | Some prose_config =>
        let final_prompt :=
          assemble_final_prompt (PromptValue (dict_get prose_config "text" PNone))
            action_beats additional_vars summary PNone in
        block
          [ call (record AssembleFinalPrompt);
            call (set_preview_text []);
            call (set_preview_read_only true);
            construct_worker final_prompt (Some prose_config);
            wire_and_start Slot_show_token_limit_dialog ] s
    end.

Definition retry_with_auto_summary : method :=
  fun s =>
    let summary := strip (editor_text s) in
    block
      [ call (set_preview_text summary);
        call (record (StatusMessage "Summary generated. Edit if needed, then resend.")) ] s.

(** The guard of [handle_token_limit_error]:
    [current_item and level < 2 and current_item.data(0, Qt.UserRole).get("summary")]. *)
Definition uses_cached_summary (s : ProjectWindow) : bool :=
  match current_item s with
  | Some it => (item_level it <? 2) && truthy (dict_get (item_data it) "summary" PNone)
  | None => false
  end.

Definition handle_token_limit_error (error_msg : pystr) : method :=
  block
    [ call (set_send_enabled true);
      fun s =>
        if uses_cached_summary s then
          match current_item s with
          | Some it =>
              match item_data it !! "summary" with
              | Some summary => retry_with_summary summary s
              | None => Raised KeyError s
              end
          | None => Raised AttributeError s
          end
        else
          block
            [ call (record (StatusMessage "Generating summary to fit token limit…"));
              call (record CreateSummary);
              call (record (TimerSingleShot 30000 Callback_retry_with_auto_summary)) ] s ].

Definition retry_with_truncated_story : method :=
  fun s =>
    let full_text := editor_text s in
    match prose_prompt s with
    | None => Raised AttributeError s           (* [prose_config.get] on [None] *)
    | Some prose_config =>
        let tokens := encode cl100k_base full_text in
        match half_budget (dict_get prose_config "max_tokens" (PInt 2000)) with
        | inl e => Raised e s
        | inr k =>
            match encoding s with
            | None => Raised AttributeError s   (* [self.encoding] is not bound *)
            | Some enc =>
                let truncated := decode enc (slice_from (- k) tokens) in
                retry_with_summary (PStr truncated) s
            end
        end
    end.

Definition show_token_limit_dialog (choice : user_choice) (error_msg : pystr) : method :=
  fun s =>
    match prose_prompt s with
    | None => Raised AttributeError s           (* [prose_config.get] on [None] *)
    | Some prose_config =>
        let max_tokens := dict_get prose_config "max_tokens" (PInt 2000) in
        block
          [ call (record (TokenLimitDialogExec error_msg (preview_text s) max_tokens));
            match choice with
            | Dismiss => Done
            | UseSummary text => retry_with_summary (PStr text)
            | TruncateStory => retry_with_truncated_story
            end ] s
    end.


(** A slot of the window invoked with the signal's argument. *)
Definition slot_call (choice : user_choice) (arg : pystr) (sl : slot) : method :=
  match sl with
  | Slot_update_text => update_text arg
  | Slot_on_finished => on_finished
  | Slot_cleanup_worker => cleanup_worker
  | Slot_handle_token_limit_error => handle_token_limit_error arg
  | Slot_show_token_limit_dialog => show_token_limit_dialog choice arg
  end.


(** The collaborator calls of one construction followed by
    [wire_and_start], for the worker numbered [n]. *)
Definition launch_events (n : nat) (token_limit_slot : slot) : list event :=
  [ WorkerCreate n;
    WorkerConnect n Sig_data_received Slot_update_text;
    WorkerConnect n Sig_finished Slot_on_finished;
    WorkerConnect n Sig_finished Slot_cleanup_worker;
    WorkerConnect n Sig_token_limit_exceeded token_limit_slot;
    WorkerStart n ].

(** The worker object right after construction and [wire_and_start]. *)
Definition launched_worker (n : nat) (final_prompt : pystr)
  (config : option (gmap string pyval)) (token_limit_slot : slot) : LLMWorker :=
  mkWorker n final_prompt config
    [Slot_update_text] [Slot_on_finished; Slot_cleanup_worker] [token_limit_slot]
    true false (thread_exit n) false.

(** The window as [send_prompt] has it when it reaches [self.stop_llm()]:
    prompt assembled, preview cleared and locked, send button disabled,
    pending events processed. *)
Definition before_stop (s : ProjectWindow) : ProjectWindow :=
  processEvents
    (record ProcessEvents
       (set_preview_read_only true
          (set_send_enabled false
             (set_preview_text [] (record AssembleFinalPrompt s))))).


(** The prompt [retry_with_summary] assembles. *)
Definition retry_prompt (s : ProjectWindow) (prose_config : gmap string pyval)
  (summary : pyval) : pystr :=
  assemble_final_prompt (PromptValue (dict_get prose_config "text" PNone))
    (strip (prompt_input s)) (retry_additional_vars s) summary PNone.


(** Worker [w] emits [finished()], as every [QThread] does when [run]
    returns: the connected slots run in connection order. *)
Definition emit_finished (choice : user_choice) (w : LLMWorker) : method :=
  block (map (slot_call choice []) (finished w)).


(** *** The POV character dropdown *)

Variable lower : pystr -> pystr.                         (* [str.lower] *)

Definition py_lower (v : jval) : pyerror + pystr :=
  match v with
  | JStr s => inr (lower s)
  | _ => inl E_AttributeError
  end.

(** The comprehension over the entries of the characters category: the
    stripped names that are not empty. *)
Fixpoint entry_names (entries : list jval) : pyerror + list pystr :=
  match entries with
  | [] => inr []
  | entry :: rest =>
      and_then (py_get entry (key "name") (JStr [])) (fun name =>
      and_then (py_strip name) (fun stripped =>
      match stripped with
      | [] => entry_names rest
      | _ :: _ =>
          and_then (py_get entry (key "name") (JStr [])) (fun name' =>
          and_then (py_strip name') (fun element =>
          and_then (entry_names rest) (fun names => inr (element :: names))))
      end))
  end.

(** The loop over the categories, left at the first one called
    "characters". *)
Fixpoint characters_loop (categories : list jval) : pyerror + list pystr :=
  match categories with
  | [] => inr []
  | cat :: rest =>
      and_then (py_get cat (key "name") (JStr [])) (fun name =>
      and_then (py_lower name) (fun lowered =>
      if bool_decide (lowered = key "characters") then
        and_then (py_get cat (key "entries") (JList [])) (fun entries_value =>
        and_then (py_iter entries_value) entry_names)
      else characters_loop rest))
  end.

Definition characters_of (data : jval) : pyerror + list pystr :=
  and_then (py_get data (key "categories") (JList [])) (fun categories_value =>
  and_then (py_iter categories_value) characters_loop).

(** What the compendium file gives: [None] when the file does not exist,
    [Some None] when opening or parsing it raises, else the parsed value. *)
Definition dropdown_characters (compendium : option (option jval)) : list pystr :=
  let characters :=
    match compendium with
    | Some (Some data) =>
        match characters_of data with
        | inr names => names
        | inl _ => []                     (* [except Exception]: printed *)
        end
    | Some None => []
    | None => []
    end in
  let characters :=
    match characters with
    | [] => [key "Alice"; key "Bob"; key "Charlie"]
    | _ :: _ => characters
    end in
  characters ++ [gettext "Custom..."].

(** [update_pov_character_dropdown]: [clear()] and [addItems(characters)];
    the first item added to an empty combo box becomes current. *)
Definition update_pov_character_dropdown (compendium : option (option jval))
  (combo : ComboBox) : ComboBox :=
  mkCombo (dropdown_characters compendium) 0.

Definition restore_pov_character (previous_pov : pystr) (combo : ComboBox) : ComboBox :=
  let index := findText combo previous_pov in
  if 0 <=? index then setCurrentIndex index combo
  else if (count combo =? 2)
          && negb (bool_decide (itemText combo 0 = gettext "Custom..."))
  then setCurrentIndex 0 combo
  else if 2 <? count combo then
    let placeholder := gettext "-- Select Character --" in
    let combo := if findText combo placeholder =? -1
                 then insertItem_front placeholder combo else combo in
    setCurrentIndex 0 combo
  else setCurrentIndex (findText combo (gettext "Custom...")) combo.

(** *** Saving and closing *)

Variable get_item_level : TreeNode -> Z.      (* [project_tree.get_item_level] *)
(* [self.model.save_scene]: the path written, or a false value *)
Variable save_scene : list pystr -> pystr -> bool -> pyval.

(** The shared tail of both save methods. *)
Definition save_and_report (item : TreeNode) (expected_project : bool) (message : string)
  (s : Editing) : Editing :=
  let content := editor_html s in
  let hierarchy := get_item_hierarchy item in
  let filepath := save_scene hierarchy content expected_project in
  let s := called (SaveScene hierarchy content expected_project) s in
  if truthy filepath then set_unsaved_changes false (called (SaveStatus message) s) else s.


(** [autosave_scene(current_item)]: without an item, the current one. *)
Definition autosave_scene (current_item : option TreeNode) (s : Editing) : Editing :=
  let current_item :=
    match current_item with
    | Some item => Some item
    | None => tree_current s
    end in
  match current_item with
  | None => s
  | Some item =>
      if get_item_level item <? 2 then s
      else
        match strip (editor_html s) with
        | [] => s
        | _ :: _ => save_and_report item true "Scene autosaved" s
        end
  end.

(** [check_unsaved_changes(item)]; [autosave_preview] is [pass]. *)
Definition check_unsaved_changes (item : option TreeNode) (s : Editing) : bool * Editing :=
  let s := if unsaved_changes s then autosave_scene item s else s in
  (true, s).

Definition closeEvent (s : Editing) : Editing :=
  let (ok, s) := check_unsaved_changes None s in
  if negb ok then called EventIgnore s
  else
    let s :=
      match autosave_timer s with
      | Some true => called AutosaveTimerStop s
      | _ => s
      end in
    called EventAccept (called WriteSettings s).

(** The item a save is about: the one passed, else the current one. *)
Definition save_target (item : option TreeNode) (s : Editing) : option TreeNode :=
  match item with
  | Some i => Some i
  | None => tree_current s
  end.

(** Whether a save of [item] reaches [save_scene]: a scene is selected and
    the editor holds more than white space. *)
Definition saves (item : option TreeNode) (s : Editing) : bool :=
  match save_target item s with
  | Some i =>
      negb (get_item_level i <? 2)
      && match strip (editor_html s) with [] => false | _ :: _ => true end
  | None => false
  end.

(** ** Properties *)

(** *** Text and slices *)

Lemma lstrip_blank (s : pystr) : forallb isspace s = true -> lstrip s = [].
Proof.
  induction s as [|c r IH]; simpl; [reflexivity|].
  intros H. apply andb_prop in H as [Hc Hr]. rewrite Hc. auto.
Qed.

Lemma lstrip_nil_blank (s : pystr) : lstrip s = [] -> forallb isspace s = true.
Proof.
  induction s as [|c r IH]; simpl; [reflexivity|].
  destruct (isspace c); simpl; [exact IH | discriminate].
Qed.

Lemma strip_blank (s : pystr) : forallb isspace s = true -> strip s = [].
Proof.
  intros H. unfold strip, rstrip. rewrite (lstrip_blank s H). reflexivity.
Qed.

Lemma lstrip_suffix (s : pystr) : exists p, s = p ++ lstrip s /\ forallb isspace p = true.
Proof.
  induction s as [|c r [p [Hp Hb]]]; simpl.
  - exists []. split; reflexivity.
  - destruct (isspace c) eqn:Hc.
    + exists (c :: p). simpl. rewrite Hc, Hb. split; [congruence | reflexivity].
    + exists []. split; reflexivity.
Qed.

Lemma strip_nil_blank (s : pystr) : strip s = [] -> forallb isspace s = true.
Proof.
  unfold strip, rstrip. intros H.
  assert (Hl : lstrip (rev (lstrip s)) = []).
  { apply (f_equal (@rev N)) in H. rewrite rev_involutive in H. exact H. }
  apply lstrip_nil_blank in Hl.
  assert (Hb : forallb isspace (lstrip s) = true).
  { rewrite forallb_forall in *. intros x Hx. apply Hl, (proj1 (in_rev _ _)), Hx. }
  destruct (lstrip_suffix s) as [p [Hp Hpb]].
  rewrite Hp, forallb_app, Hpb, Hb. reflexivity.
Qed.

Lemma slice_from_zero {A : Type} (l : list A) : slice_from 0 l = l.
Proof.
  unfold slice_from. simpl.
  replace (Z.min 0 (Z.of_nat (length l))) with 0 by lia. reflexivity.
Qed.

Lemma slice_from_neg_length {A : Type} (k : Z) (l : list A) :
  0 < k -> length (slice_from (- k) l) = Nat.min (Z.to_nat k) (length l).
Proof.
  intros Hk. unfold slice_from.
  destruct (Z.ltb_spec (- k) 0) as [_|?]; [|lia].
  rewrite length_drop. lia.
Qed.

Lemma slice_from_suffix {A : Type} (i : Z) (l : list A) :
  exists p, l = p ++ slice_from i l.
Proof.
  unfold slice_from. eexists. symmetry. apply take_drop.
Qed.


(** Unfold the control combinators and the calls on the worker. *)
Ltac run_method :=
  cbv [block andthen try_except when call with_worker
       worker_stop worker_wait worker_disconnect worker_deleteLater worker_connect
       worker_start log_not_stopped construct_worker wire_and_start
       has_worker worker_is_running is_TypeError is_Exception];
  cbn.

Lemma config_selected_true (c : option (gmap string pyval)) :
  config_selected c = true -> exists d, c = Some d /\ d <> ∅.
Proof.
  destruct c as [d|]; simpl; [|discriminate].
  intros H. exists d. split; [reflexivity|].
  apply negb_true_iff, bool_decide_eq_false in H. exact H.
Qed.

(** C9. A dispatch whose action beats are empty or only white space, or
    for which no prompt configuration is selected, shows one warning and
    returns: the window is otherwise unchanged, so no prompt was
    assembled, no worker was stopped, and none was created or started. *)
Theorem send_prompt_refuses_blank_or_unselected (s : ProjectWindow) :
  forallb isspace (prompt_input s) = true \/ config_selected (prose_prompt s) = false ->
  exists title text, send_prompt s = Done (record (MessageBoxWarning title text) s).
Proof.
  intros H. unfold send_prompt.
  destruct (strip (prompt_input s)) as [|c r] eqn:Hbeats.
  - eauto.
  - destruct H as [H|H].
    + rewrite (strip_blank _ H) in Hbeats. discriminate.
    + destruct (prose_prompt s) as [d|]; [|eauto].
      rewrite H. eauto.
Qed.

Ltac split_worker w :=
  destruct w as [id p c dr fin tle run stp halt del]; cbn in *.

Arguments thread_wait : simpl never.
Arguments N.add : simpl never.

Lemma thread_wait_bound (ms : N) (w : LLMWorker) : (snd (thread_wait ms w) <= ms)%N.
Proof.
  unfold thread_wait. destruct (running w); [|cbn; lia].
  destruct (halts_in w) as [d|]; [|cbn; lia].
  destruct (N.leb_spec d ms); cbn; lia.
Qed.

Lemma thread_wait_same (ms : N) (w : LLMWorker) :
  wid (fst (thread_wait ms w)) = wid w /\
  data_received (fst (thread_wait ms w)) = data_received w /\
  finished (fst (thread_wait ms w)) = finished w /\
  token_limit_exceeded (fst (thread_wait ms w)) = token_limit_exceeded w /\
  stop_requested (fst (thread_wait ms w)) = stop_requested w /\
  delete_later (fst (thread_wait ms w)) = delete_later w.
Proof.
  unfold thread_wait. destruct (running w); [|cbn; tauto].
  destruct (halts_in w) as [d|]; [|cbn; tauto].
  destruct (d <=? ms)%N; cbn; tauto.
Qed.

(** What [cleanup_worker] does to a window that references a worker. *)
Lemma cleanup_worker_releases (s : ProjectWindow) (w : LLMWorker) :
  worker s = Some w ->
  exists s' w',
    cleanup_worker s = Done s' /\
    worker s' = None /\ detached s' = w' :: detached s /\
    wid w' = wid w /\ data_received w' = [] /\ delete_later w' = true /\
    (running w = true -> stop_requested w' = true) /\
    send_enabled s' = send_enabled s /\
    preview_read_only s' = preview_read_only s /\
    created s' = created s.
Proof.
  intros Hw. destruct s; cbn in *; subst. split_worker w.
  unfold cleanup_worker. run_method.
  destruct run; cbn.
  - pose proof (thread_wait_same 5000 (mkWorker id p c dr fin tle true true halt del)) as Hs.
    destruct (thread_wait 5000 _) as [[id' p' c' dr' fin' tle' run' stp' halt' del'] t].
    cbn in Hs. destruct Hs as (-> & -> & -> & -> & -> & ->).
    destruct run'; cbn; destruct dr, fin, tle; cbn;
      do 2 eexists; repeat split; cbn; reflexivity.
  - destruct dr, fin, tle; cbn; do 2 eexists; repeat split; cbn; try reflexivity;
      discriminate.
Qed.

(** C4. [stop_llm] returns normally from every state of the window (no
    worker, a worker that is not running, a running worker), leaving the
    send button enabled, the preview editable and [self.worker] cleared;
    a further call returns normally again and changes nothing. *)
Theorem stop_llm_total_idempotent (s : ProjectWindow) :
  exists s',
    stop_llm s = Done s' /\
    send_enabled s' = true /\ preview_read_only s' = false /\ worker s' = None /\
    stop_llm s' = Done s'.
Proof.
  destruct s as [w enc det n pin pv ro se pp po av sc ed it st tr bl].
  destruct w as [w|].
  - split_worker w. unfold stop_llm, cleanup_worker. run_method.
    destruct run; cbn.
    + destruct (thread_wait 5000 _) as [[id' p' c' dr' fin' tle' run' stp' halt' del'] t].
      destruct run'; cbn; destruct dr', fin', tle'; cbn;
        eexists; repeat split; reflexivity.
    + destruct dr, fin, tle; cbn; eexists; repeat split; reflexivity.
  - unfold stop_llm, cleanup_worker. run_method. eexists; repeat split; reflexivity.
Qed.

(** C7. Cleaning up a worker whose thread is still running: the caller asks
    it to stop and waits once, for at most 5000 ms; when the thread is
    still running after that, a warning is logged and the thread is left
    running (no [terminate]); in both cases the three signals are
    disconnected, deletion is scheduled and [self.worker] is cleared. *)
Theorem cleanup_worker_bounded_grace (s : ProjectWindow) (w : LLMWorker) :
  worker s = Some w -> running w = true -> wired w ->
  exists s' w',
    cleanup_worker s = Done s' /\
    worker s' = None /\ detached s' = w' :: detached s /\
    wid w' = wid w /\
    data_received w' = [] /\ finished w' = [] /\ token_limit_exceeded w' = [] /\
    delete_later w' = true /\ stop_requested w' = true /\
    running w' = running (fst (thread_wait 5000 (set_stop_requested w))) /\
    (blocked_ms s' <= blocked_ms s + 5000)%N /\
    trace s' =
      trace s
      ++ [WorkerStop (wid w); WorkerWait (wid w) 5000]
      ++ (if running w' then [LogWarningNotStopped (wid w)] else [])
      ++ [WorkerDisconnect (wid w) Sig_data_received;
          WorkerDisconnect (wid w) Sig_finished;
          WorkerDisconnect (wid w) Sig_token_limit_exceeded;
          WorkerDeleteLater (wid w)].
Proof.
  intros Hw Hrun (Hd & Hf & Ht).
  destruct s as [w0 enc det n pin pv ro se pp po av sc ed it st tr bl].
  cbn in Hw; subst w0. split_worker w. subst run.
  unfold cleanup_worker. run_method. unfold set_stop_requested; cbn.
  pose proof (thread_wait_same 5000 (mkWorker id p c dr fin tle true true halt del)) as Hs.
  pose proof (thread_wait_bound 5000 (mkWorker id p c dr fin tle true true halt del)) as Hb.
  destruct (thread_wait 5000 _) as [[id' p' c' dr' fin' tle' run' stp' halt' del'] t].
  cbn in Hs, Hb. destruct Hs as (-> & -> & -> & -> & -> & ->).
  destruct dr as [|d1 dr]; [congruence|].
  destruct fin as [|f1 fin]; [congruence|].
  destruct tle as [|t1 tle]; [congruence|].
  destruct run'; cbn; do 2 eexists;
    (split; [reflexivity|]); cbn; repeat split; try reflexivity; try lia;
    rewrite <- ?app_assoc; reflexivity.
Qed.

(** Construction, the four connections and [start], as one step. *)
Lemma launch_worker (final_prompt : pystr) (config : option (gmap string pyval))
  (token_limit_slot : slot) (s : ProjectWindow) :
  exists s',
    block [construct_worker final_prompt config; wire_and_start token_limit_slot] s = Done s' /\
    worker s' = Some (launched_worker (created s) final_prompt config token_limit_slot) /\
    detached s' = option_list (worker s) ++ detached s /\
    created s' = S (created s) /\
    trace s' = trace s ++ launch_events (created s) token_limit_slot /\
    preview_text s' = preview_text s /\
    preview_read_only s' = preview_read_only s /\
    send_enabled s' = send_enabled s /\
    blocked_ms s' = blocked_ms s.
Proof.
  destruct s as [w enc det n pin pv ro se pp po av sc ed it st tr bl].
  run_method. eexists. split; [reflexivity|]. cbn.
  repeat split; try reflexivity.
  unfold launch_events. rewrite <- ?app_assoc. reflexivity.
Qed.

(** Close the conjuncts left once a method has been run on a window given
    by its fields. *)
Ltac settle :=
  repeat match goal with
         | H : false = true |- _ => discriminate H
         | |- _ /\ _ => split
         | |- _ = _ => first [reflexivity | rewrite <- ?app_assoc; reflexivity]
         | |- In _ _ => cbn; repeat first [left; reflexivity | right]
         | |- forall n, ~ In _ _ =>
             let H := fresh in
             intros ? H; cbn in H;
             repeat match goal with
                    | D : _ \/ _ |- _ => destruct D
                    | D : False |- _ => destruct D
                    | D : _ = _ |- _ => discriminate D
                    end
         | |- _ -> _ => intros ?
         | |- exists _, _ => eexists
         end.

(** [stop_llm] on a window that references a worker. *)
Lemma stop_llm_releases (s : ProjectWindow) (w : LLMWorker) :
  worker s = Some w ->
  exists s' w' teardown,
    stop_llm s = Done s' /\
    worker s' = None /\ detached s' = w' :: detached s /\
    created s' = created s /\
    wid w' = wid w /\ data_received w' = [] /\ delete_later w' = true /\
    trace s' = trace s ++ teardown /\
    In (WorkerDeleteLater (wid w)) teardown /\
    (forall n, ~ In (WorkerCreate n) teardown) /\
    (forall n, ~ In (WorkerStart n) teardown) /\
    (running w = true ->
     stop_requested w' = true /\
     exists rest, teardown = WorkerStop (wid w) :: AggregatorInterrupt :: rest).
Proof.
  intros Hw.
  destruct s as [w0 enc det n pin pv ro se pp po av sc ed it st tr bl].
  cbn in Hw; subst w0. split_worker w.
  unfold stop_llm, cleanup_worker. run_method.
  destruct run; cbn.
  - pose proof (thread_wait_same 5000 (mkWorker id p c dr fin tle true true halt del)) as Hs.
    destruct (thread_wait 5000 _) as [[id' p' c' dr' fin' tle' run' stp' halt' del'] t].
    cbn in Hs. destruct Hs as (-> & -> & -> & -> & -> & ->).
    destruct run'; cbn; destruct dr, fin, tle; cbn;
      do 3 eexists; (split; [reflexivity|]); cbn; settle.
  - destruct dr, fin, tle; cbn;
      do 3 eexists; (split; [reflexivity|]); cbn; settle.
Qed.

Lemma stop_llm_no_worker (s : ProjectWindow) :
  worker s = None ->
  exists s',
    stop_llm s = Done s' /\
    worker s' = None /\ detached s' = detached s /\
    created s' = created s /\ trace s' = trace s.
Proof.
  intros Hw.
  destruct s as [w0 enc det n pin pv ro se pp po av sc ed it st tr bl].
  cbn in Hw; subst w0. unfold stop_llm, cleanup_worker. run_method.
  eexists. split; [reflexivity|]. cbn. settle.
Qed.



Lemma retry_with_summary_launches (s : ProjectWindow) (summary : pyval)
  (prose_config : gmap string pyval) :
  prose_prompt s = Some prose_config ->
  exists s',
    retry_with_summary summary s = Done s' /\
    worker s' =
      Some (launched_worker (created s) (retry_prompt s prose_config summary)
              (Some prose_config) Slot_show_token_limit_dialog) /\
    trace s' =
      trace s ++ AssembleFinalPrompt :: launch_events (created s) Slot_show_token_limit_dialog /\
    detached s' = option_list (worker s) ++ detached s /\
    created s' = S (created s) /\
    preview_text s' = [] /\ preview_read_only s' = true /\
    send_enabled s' = send_enabled s.
Proof.
  intros Hcfg.
  destruct s as [w enc det n pin pv ro se pp po av sc ed it st tr bl].
  cbn in Hcfg; subst pp. unfold retry_with_summary. cbn. run_method.
  eexists. split; [reflexivity|]. cbn. unfold launch_events. settle.
Qed.

(** The guard of the cached-summary path, when it holds. *)
Lemma cached_summary_path (s : ProjectWindow) (error_msg : pystr)
  (it : TreeItem) (summary : pyval) :
  current_item s = Some it -> item_level it < 2 ->
  item_data it !! "summary" = Some summary -> truthy summary = true ->
  handle_token_limit_error error_msg s = retry_with_summary summary (set_send_enabled true s).
Proof.
  intros Hit Hlvl Hsum Htruthy.
  unfold handle_token_limit_error. run_method.
  unfold uses_cached_summary. cbn. rewrite Hit. cbn.
  unfold dict_get. rewrite Hsum. cbn. rewrite Htruthy.
  replace (item_level it <? 2) with true by (symmetry; apply Z.ltb_lt; exact Hlvl).
  cbn. destruct (retry_with_summary summary (set_send_enabled true s)); reflexivity.
Qed.



(** The other branch of the guard. *)
Lemma summarizer_path (s : ProjectWindow) (error_msg : pystr) :
  uses_cached_summary s = false ->
  handle_token_limit_error error_msg s =
    Done (record (TimerSingleShot 30000 Callback_retry_with_auto_summary)
            (record CreateSummary
               (record (StatusMessage "Generating summary to fit token limit…")
                  (set_send_enabled true s)))).
Proof.
  intros Hguard. unfold handle_token_limit_error. run_method.
  change (uses_cached_summary (set_send_enabled true s)) with (uses_cached_summary s).
  rewrite Hguard. reflexivity.
Qed.




(** *** Truncate and retry *)

Lemma int_half_zero (n : Z) : int_half n = 0 <-> -2 < n < 2.
Proof.
  unfold int_half. split; intros H.
  - pose proof (Z.quot_rem' n 2) as Hq. rewrite H in Hq.
    pose proof (Z.rem_bound_abs n 2 ltac:(lia)). lia.
  - apply Z.quot_small_iff; lia.
Qed.

(** The window the slice selects: the last [k] tokens for a positive [k],
    every token for [k = 0]. *)
Lemma trailing_window (k : Z) (tokens : list nat) :
  0 <= k ->
  (exists p, tokens = p ++ slice_from (- k) tokens) /\
  (0 < k -> length (slice_from (- k) tokens) = Nat.min (Z.to_nat k) (length tokens)) /\
  (k = 0 -> slice_from (- k) tokens = tokens).
Proof.
  intros Hk. split; [apply slice_from_suffix|]. split.
  - apply slice_from_neg_length.
  - intros ->. apply slice_from_zero.
Qed.

Lemma default_budget (prose_config : gmap string pyval) :
  prose_config !! "max_tokens" = None ->
  half_budget (dict_get prose_config "max_tokens" (PInt 2000)) = inr 1000.
Proof. intros H. unfold dict_get. rewrite H. reflexivity. Qed.

(** Up to the attribute lookup, [retry_with_truncated_story] is a retry on
    the decoded trailing window. *)
Lemma truncated_story_with_encoding (s : ProjectWindow) (enc : Encoding)
  (prose_config : gmap string pyval) (n : Z) :
  encoding s = Some enc -> prose_prompt s = Some prose_config ->
  dict_get prose_config "max_tokens" (PInt 2000) = PInt n ->
  retry_with_truncated_story s =
    retry_with_summary
      (PStr (decode enc (slice_from (- int_half n) (encode cl100k_base (editor_text s))))) s.
Proof.
  intros Henc Hcfg Hn. unfold retry_with_truncated_story.
  rewrite Hcfg, Hn, Henc. reflexivity.
Qed.

(** No method binds [self.encoding]: a window on which it is unbound stays
    so through every method, whether the method returns or raises. *)
Lemma cleanup_worker_keeps_encoding (s : ProjectWindow) :
  encoding (state_of (cleanup_worker s)) = encoding s.
Proof.
  destruct s as [w enc det n pin pv ro se pp po av sc ed it st tr bl].
  destruct w as [w|]; [|reflexivity].
  split_worker w. unfold cleanup_worker. run_method.
  destruct run; cbn.
  - destruct (thread_wait 5000 _) as [[id' p' c' dr' fin' tle' run' stp' halt' del'] t].
    destruct run'; cbn; destruct dr', fin', tle'; reflexivity.
  - destruct dr, fin, tle; reflexivity.
Qed.

Lemma stop_llm_keeps_encoding (s : ProjectWindow) :
  encoding (state_of (stop_llm s)) = encoding s.
Proof.
  destruct s as [w enc det n pin pv ro se pp po av sc ed it st tr bl].
  destruct w as [w|]; [|reflexivity].
  split_worker w. unfold stop_llm, cleanup_worker. run_method.
  destruct run; cbn.
  - destruct (thread_wait 5000 _) as [[id' p' c' dr' fin' tle' run' stp' halt' del'] t].
    destruct run'; cbn; destruct dr', fin', tle'; reflexivity.
  - destruct dr, fin, tle; reflexivity.
Qed.

Lemma retry_with_summary_keeps_encoding (summary : pyval) (s : ProjectWindow) :
  encoding (state_of (retry_with_summary summary s)) = encoding s.
Proof.
  unfold retry_with_summary. destruct (prose_prompt s); reflexivity.
Qed.

Lemma handle_token_limit_error_keeps_encoding (error_msg : pystr) (s : ProjectWindow) :
  encoding (state_of (handle_token_limit_error error_msg s)) = encoding s.
Proof.
  unfold handle_token_limit_error. run_method.
  destruct (uses_cached_summary (set_send_enabled true s)); [|reflexivity].
  destruct (current_item s) as [it|]; [|reflexivity].
  destruct (item_data it !! "summary") as [v|]; [|reflexivity].
  pose proof (retry_with_summary_keeps_encoding v (set_send_enabled true s)) as H.
  destruct (retry_with_summary v (set_send_enabled true s)); exact H.
Qed.

Lemma retry_with_truncated_story_keeps_encoding (s : ProjectWindow) :
  encoding (state_of (retry_with_truncated_story s)) = encoding s.
Proof.
  unfold retry_with_truncated_story.
  destruct (prose_prompt s) as [c|]; [|reflexivity].
  destruct (half_budget _); [reflexivity|].
  destruct (encoding s) eqn:He; [|cbn; congruence].
  rewrite retry_with_summary_keeps_encoding. exact He.
Qed.

Lemma show_token_limit_dialog_keeps_encoding (choice : user_choice) (error_msg : pystr)
  (s : ProjectWindow) :
  encoding (state_of (show_token_limit_dialog choice error_msg s)) = encoding s.
Proof.
  unfold show_token_limit_dialog.
  destruct (prose_prompt s) as [c|]; [|reflexivity].
  run_method. destruct choice as [|text|].
  - reflexivity.
  - match goal with |- context [retry_with_summary ?v ?x] =>
      pose proof (retry_with_summary_keeps_encoding v x) as H;
      destruct (retry_with_summary v x); exact H end.
  - match goal with |- context [retry_with_truncated_story ?x] =>
      pose proof (retry_with_truncated_story_keeps_encoding x) as H;
      destruct (retry_with_truncated_story x); exact H end.
Qed.

Lemma launch_keeps_encoding (final_prompt : pystr) (config : option (gmap string pyval))
  (token_limit_slot : slot) (s : ProjectWindow) :
  encoding (state_of (block [construct_worker final_prompt config;
                             wire_and_start token_limit_slot] s)) = encoding s.
Proof. destruct s. reflexivity. Qed.

Lemma send_prompt_keeps_encoding (s : ProjectWindow) :
  (forall x, encoding (processEvents x) = encoding x) ->
  encoding (state_of (send_prompt s)) = encoding s.
Proof.
  intros Hpending. unfold send_prompt.
  destruct (strip (prompt_input s)) as [|c r]; [reflexivity|].
  destruct (prose_prompt s) as [d|]; [|reflexivity].
  destruct (config_selected (Some d)); [|reflexivity].
  change (block (?a :: ?b :: ?c :: ?d :: ?e :: ?rest) s)
    with (block rest (before_stop s)).
  change (block (?m :: ?rest) ?x) with (andthen m (block rest) x).
  unfold andthen at 1.
  pose proof (stop_llm_keeps_encoding (before_stop s)) as Hstop.
  assert (Hbefore : encoding (before_stop s) = encoding s).
  { unfold before_stop. rewrite Hpending. reflexivity. }
  destruct (stop_llm (before_stop s)) as [s1|e s1]; cbn in Hstop.
  - rewrite launch_keeps_encoding. congruence.
  - cbn. congruence.
Qed.

Lemma simple_slots_keep_encoding (text : pystr) (s : ProjectWindow) :
  encoding (state_of (update_text text s)) = encoding s /\
  encoding (state_of (on_finished s)) = encoding s /\
  encoding (state_of (retry_with_auto_summary s)) = encoding s.
Proof.
  repeat split. unfold on_finished. run_method.
  destruct (rev (lstrip (rev (lstrip (preview_text s))))); reflexivity.
Qed.

(** *** Every worker the window holds is fully connected *)

Lemma launched_worker_wired (n : nat) (final_prompt : pystr)
  (config : option (gmap string pyval)) (token_limit_slot : slot) :
  wired (launched_worker n final_prompt config token_limit_slot).
Proof. repeat split; discriminate. Qed.

Lemma new_window_wired (beats editor : pystr) (item : option TreeItem)
  (prose_config overrides : option (gmap string pyval)) :
  window_wired (new_window beats editor item prose_config overrides).
Proof. exact I. Qed.

Lemma cleanup_worker_wired (s : ProjectWindow) : window_wired (state_of (cleanup_worker s)).
Proof.
  destruct (worker s) as [w|] eqn:Hw.
  - destruct (cleanup_worker_releases s w Hw) as (s' & w' & -> & Hnone & _).
    unfold window_wired. cbn. rewrite Hnone. exact I.
  - unfold cleanup_worker. run_method. rewrite Hw. cbn.
    unfold window_wired. rewrite Hw. exact I.
Qed.

Lemma stop_llm_wired (s : ProjectWindow) : window_wired (state_of (stop_llm s)).
Proof.
  destruct (worker s) as [w|] eqn:Hw.
  - destruct (stop_llm_releases s w Hw) as (s' & w' & td & -> & Hnone & _).
    unfold window_wired. cbn. rewrite Hnone. exact I.
  - destruct (stop_llm_no_worker s Hw) as (s' & -> & Hnone & _).
    unfold window_wired. cbn. rewrite Hnone. exact I.
Qed.

Lemma retry_with_summary_wired (summary : pyval) (s : ProjectWindow) :
  window_wired s -> window_wired (state_of (retry_with_summary summary s)).
Proof.
  intros Hs. destruct (prose_prompt s) as [c|] eqn:Hc.
  - destruct (retry_with_summary_launches s summary c Hc) as (s' & -> & Hw & _).
    unfold window_wired. cbn. rewrite Hw. apply launched_worker_wired.
  - unfold retry_with_summary. rewrite Hc. exact Hs.
Qed.

Lemma handle_token_limit_error_wired (error_msg : pystr) (s : ProjectWindow) :
  window_wired s -> window_wired (state_of (handle_token_limit_error error_msg s)).
Proof.
  intros Hs. unfold handle_token_limit_error. run_method.
  destruct (uses_cached_summary (set_send_enabled true s)); [|exact Hs].
  destruct (current_item s) as [it|]; [|exact Hs].
  destruct (item_data it !! "summary") as [v|]; [|exact Hs].
  pose proof (retry_with_summary_wired v (set_send_enabled true s) Hs) as H.
  destruct (retry_with_summary v (set_send_enabled true s)); exact H.
Qed.

Lemma retry_with_truncated_story_wired (s : ProjectWindow) :
  window_wired s -> window_wired (state_of (retry_with_truncated_story s)).
Proof.
  intros Hs. unfold retry_with_truncated_story.
  destruct (prose_prompt s) as [c|]; [|exact Hs].
  destruct (half_budget _); [exact Hs|].
  destruct (encoding s); [|exact Hs].
  apply retry_with_summary_wired, Hs.
Qed.

Lemma show_token_limit_dialog_wired (choice : user_choice) (error_msg : pystr)
  (s : ProjectWindow) :
  window_wired s -> window_wired (state_of (show_token_limit_dialog choice error_msg s)).
Proof.
  intros Hs. unfold show_token_limit_dialog.
  destruct (prose_prompt s) as [c|]; [|exact Hs].
  run_method. destruct choice as [|text|].
  - exact Hs.
  - match goal with |- context [retry_with_summary ?v ?x] =>
      pose proof (retry_with_summary_wired v x Hs) as H;
      destruct (retry_with_summary v x); exact H end.
  - match goal with |- context [retry_with_truncated_story ?x] =>
      pose proof (retry_with_truncated_story_wired x Hs) as H;
      destruct (retry_with_truncated_story x); exact H end.
Qed.

Lemma send_prompt_wired (s : ProjectWindow) :
  window_wired s -> window_wired (state_of (send_prompt s)).
Proof.
  intros Hs. unfold send_prompt.
  destruct (strip (prompt_input s)) as [|c r]; [exact Hs|].
  destruct (prose_prompt s) as [d|]; [|exact Hs].
  destruct (config_selected (Some d)); [|exact Hs].
  change (block (?a :: ?b :: ?c :: ?d :: ?e :: ?rest) s)
    with (block rest (before_stop s)).
  change (block (?m :: ?rest) ?x) with (andthen m (block rest) x).
  unfold andthen at 1.
  destruct (stop_llm (before_stop s)) as [s1|e s1] eqn:Hstop.
  - match goal with |- context [block [construct_worker ?fp ?cfg; ?w] s1] =>
      destruct (launch_worker fp cfg Slot_handle_token_limit_error s1)
        as (s2 & -> & Hw & _) end.
    unfold window_wired. cbn. rewrite Hw. apply launched_worker_wired.
  - cbn. pose proof (stop_llm_wired (before_stop s)) as H.
    rewrite Hstop in H. exact H.
Qed.

(** C1, on the code.  [retry_with_truncated_story] tokenizes the document
    and halves the budget, then looks up [self.encoding], which the class
    never binds: the method raises [AttributeError] and leaves the window
    as it was.  No window is decoded and no retry is started. *)
Theorem truncated_story_never_retries (s : ProjectWindow)
  (prose_config : gmap string pyval) (n : Z) :
  encoding s = None -> prose_prompt s = Some prose_config ->
  dict_get prose_config "max_tokens" (PInt 2000) = PInt n ->
  retry_with_truncated_story s = Raised AttributeError s.
Proof.
  intros Henc Hcfg Hn. unfold retry_with_truncated_story.
  rewrite Hcfg, Hn, Henc. reflexivity.
Qed.

(** ** Further properties of the dispatch and recovery methods *)

(** X1. [retry_with_summary] does not stop, interrupt or disconnect the
    worker the window holds: it only replaces the reference, so the prior
    worker object stays as it was, connections included. *)
Theorem retry_with_summary_keeps_prior_worker (s : ProjectWindow) (w : LLMWorker)
  (summary : pyval) (prose_config : gmap string pyval) :
  worker s = Some w -> prose_prompt s = Some prose_config ->
  exists s' nw,
    retry_with_summary summary s = Done s' /\
    worker s' = Some nw /\ wid nw = created s /\
    detached s' = w :: detached s /\
    trace s' =
      trace s ++ AssembleFinalPrompt :: launch_events (created s) Slot_show_token_limit_dialog.
Proof.
  intros Hw Hcfg.
  destruct (retry_with_summary_launches s summary prose_config Hcfg)
    as (s' & Hretry & Hnw & Htr & Hdet & _).
  exists s'. eexists. rewrite Hw in Hdet.
  split; [exact Hretry|]. split; [exact Hnw|]. split; [reflexivity|].
  split; [exact Hdet | exact Htr].
Qed.

Lemma on_finished_blank (s : ProjectWindow) :
  strip (preview_text s) = [] ->
  on_finished s =
    Done (record (MessageBoxWarning "LLM Response"
                    "The LLM did not return any text. Possible token limit reached or an error occurred.")
            (set_preview_read_only false (set_send_enabled true s))).
Proof.
  intros Hblank. unfold on_finished. run_method.
  change (rev (lstrip (rev (lstrip (preview_text s))))) with (strip (preview_text s)).
  rewrite Hblank. reflexivity.
Qed.

(** X2. After the automatic retry, the worker that failed is still
    connected to [on_finished] and [cleanup_worker].  When its [finished]
    signal arrives, [cleanup_worker] acts on [self.worker], which is now
    the retry: the retry is asked to stop, disconnected and released, and
    the window holds no worker. *)
Theorem stale_finished_cancels_retry (s : ProjectWindow) (error_msg : pystr)
  (old : LLMWorker) (it : TreeItem) (summary : pyval) (prose_config : gmap string pyval) :
  worker s = Some old -> finished old = [Slot_on_finished; Slot_cleanup_worker] ->
  current_item s = Some it -> item_level it < 2 ->
  item_data it !! "summary" = Some summary -> truthy summary = true ->
  prose_prompt s = Some prose_config ->
  exists s1 s2 retry',
    handle_token_limit_error error_msg s = Done s1 /\
    emit_finished Dismiss old s1 = Done s2 /\
    worker s2 = None /\
    detached s2 = retry' :: old :: detached s /\
    wid retry' = created s /\
    stop_requested retry' = true /\ data_received retry' = [] /\
    delete_later retry' = true.
Proof.
  intros Hold Hfin Hit Hlvl Hsum Htruthy Hcfg.
  destruct (retry_with_summary_launches (set_send_enabled true s) summary prose_config Hcfg)
    as (s1 & Hretry & Hw1 & _ & Hdet1 & _ & Hpv & _).
  cbn in Hdet1. rewrite Hold in Hdet1. cbn in Hdet1.
  pose proof (on_finished_blank s1) as Hfinished.
  rewrite Hpv in Hfinished. specialize (Hfinished eq_refl).
  match type of Hfinished with _ = Done ?x => set (s1' := x) in * end.
  destruct (cleanup_worker_releases s1' _ Hw1)
    as (s2 & retry' & Hclean & Hnone & Hdet2 & Hid & Hdr & Hdel & Hstop & _).
  exists s1, s2, retry'.
  rewrite (cached_summary_path s error_msg it summary Hit Hlvl Hsum Htruthy).
  split; [exact Hretry|]. split.
  - unfold emit_finished. rewrite Hfin. cbn [map slot_call].
    change (block (?m :: ?rest) ?x) with (andthen m (block rest) x).
    unfold andthen at 1. rewrite Hfinished.
    change (block [cleanup_worker] s1') with (andthen cleanup_worker Done s1').
    unfold andthen. rewrite Hclean. reflexivity.
  - split; [exact Hnone|]. split.
    + rewrite Hdet2. subst s1'. cbn. rewrite Hdet1. reflexivity.
    + repeat split; try assumption. apply Hstop. reflexivity.
Qed.

(** X3. [cleanup_worker] on a finished worker whose [data_received] has no
    connection: the first [disconnect()] raises [TypeError], the handler
    swallows it, and the other two signals are left connected; the worker
    is still scheduled for deletion and released. *)
Theorem cleanup_worker_skips_disconnects (s : ProjectWindow) (w : LLMWorker) :
  worker s = Some w -> running w = false -> data_received w = [] ->
  cleanup_worker s =
    Done (assign_worker None
            (record (WorkerDeleteLater (wid w))
               (set_worker (Some (set_delete_later w)) s))).
Proof.
  intros Hw Hrun Hdr.
  destruct s as [w0 enc det n pin pv ro se pp po av sc ed it st tr bl].
  cbn in Hw; subst w0. split_worker w. subst run dr.
  unfold cleanup_worker. run_method. reflexivity.
Qed.

(** X4. [stop_llm] blocks its caller for at most 5000 ms, and not at all
    when the window holds no running worker: then it calls neither
    [stop], nor [wait], nor the aggregator's [interrupt]. *)
Theorem stop_llm_blocking (s : ProjectWindow) :
  exists s' calls,
    stop_llm s = Done s' /\
    trace s' = trace s ++ calls /\
    (blocked_ms s' <= blocked_ms s + 5000)%N /\
    (worker_is_running s = false ->
     blocked_ms s' = blocked_ms s /\
     ~ In AggregatorInterrupt calls /\
     (forall n, ~ In (WorkerStop n) calls) /\
     (forall n ms, ~ In (WorkerWait n ms) calls)).
Proof.
  destruct s as [w enc det n pin pv ro se pp po av sc ed it st tr bl].
  destruct w as [w|].
  - split_worker w. unfold stop_llm, cleanup_worker. run_method.
    destruct run; cbn.
    + pose proof (thread_wait_bound 5000 (mkWorker id p c dr fin tle true true halt del)) as Hb.
      destruct (thread_wait 5000 _) as [[id' p' c' dr' fin' tle' run' stp' halt' del'] t].
      cbn in Hb.
      destruct run'; cbn; destruct dr', fin', tle'; cbn;
        do 2 eexists; (split; [reflexivity|]); cbn;
        (split; [rewrite <- ?app_assoc; reflexivity|]);
        (split; [lia|]); intros Hfalse; discriminate Hfalse.
    + destruct dr, fin, tle; cbn;
        do 2 eexists; (split; [reflexivity|]); cbn;
        (split; [rewrite <- ?app_assoc; reflexivity|]);
        (split; [lia|]); intros _;
        (split; [reflexivity|]);
        repeat split; intros; cbn;
        intros HIn;
        repeat match goal with
               | D : _ \/ _ |- _ => destruct D
               | D : False |- _ => destruct D
               | D : _ = _ |- _ => discriminate D
               end.
  - unfold stop_llm, cleanup_worker. run_method.
    exists (mkWindow None enc det n pin pv false true pp po av sc ed it st tr bl), [].
    split; [reflexivity|]. cbn. rewrite app_nil_r.
    split; [reflexivity|]. split; [lia|]. intros _.
    repeat split; intros; intros [].
Qed.


(** X6. The default budget of 2000 only replaces a missing ["max_tokens"]
    entry.  When the entry is present and holds [None] or a string, the
    multiplication by [0.5] raises [TypeError] and the window is left as it
    was. *)
Theorem non_numeric_budget_raises (s : ProjectWindow)
  (prose_config : gmap string pyval) (v : pyval) :
  prose_prompt s = Some prose_config ->
  prose_config !! "max_tokens" = Some v ->
  (forall n, v <> PInt n) ->
  retry_with_truncated_story s = Raised TypeError s.
Proof.
  intros Hcfg Hv Hnot. unfold retry_with_truncated_story, dict_get.
  rewrite Hcfg, Hv. cbn.
  destruct v as [|n|t]; try reflexivity. destruct (Hnot n eq_refl).
Qed.

(** X7. Without a selected prompt the recovery cannot rebuild anything: on
    the cached-summary path the handler raises [AttributeError] after
    re-enabling the send button, and [show_token_limit_dialog] raises it
    before the dialog is created.  Neither starts a worker. *)
Theorem recovery_without_prompt_raises (s : ProjectWindow) (error_msg : pystr)
  (choice : user_choice) :
  prose_prompt s = None ->
  show_token_limit_dialog choice error_msg s = Raised AttributeError s /\
  (uses_cached_summary s = true ->
   handle_token_limit_error error_msg s = Raised AttributeError (set_send_enabled true s)).
Proof.
  intros Hcfg. split.
  - unfold show_token_limit_dialog. rewrite Hcfg. reflexivity.
  - intros Hguard. unfold handle_token_limit_error. run_method.
    change (uses_cached_summary (set_send_enabled true s)) with (uses_cached_summary s).
    rewrite Hguard.
    unfold uses_cached_summary, dict_get in Hguard.
    destruct (current_item s) as [it|]; [|discriminate].
    destruct (item_data it !! "summary") as [v|].
    + unfold retry_with_summary. cbn. rewrite Hcfg. reflexivity.
    + cbn in Hguard. rewrite andb_false_r in Hguard. discriminate.
Qed.


(** X9. A token-limit error while a scene is selected (tree level 2 or
    more, the only case in which [send_prompt] puts the editor's text in
    the prompt) never retries on its own: whatever the scene stores, the
    handler asks for a summary and arms the timer. *)
Theorem scene_error_never_retries (s : ProjectWindow) (error_msg : pystr) (it : TreeItem) :
  current_item s = Some it -> 2 <= item_level it ->
  current_scene_text s = PStr (strip (editor_text s)) /\
  handle_token_limit_error error_msg s =
    Done (record (TimerSingleShot 30000 Callback_retry_with_auto_summary)
            (record CreateSummary
               (record (StatusMessage "Generating summary to fit token limit…")
                  (set_send_enabled true s)))).
Proof.
  intros Hit Hlvl. split.
  - unfold current_scene_text. rewrite Hit.
    replace (2 <=? item_level it) with true by (symmetry; apply Z.leb_le; exact Hlvl).
    reflexivity.
  - apply summarizer_path. unfold uses_cached_summary. rewrite Hit.
    replace (item_level it <? 2) with false by (symmetry; apply Z.ltb_ge; exact Hlvl).
    reflexivity.
Qed.

(** X10. Conversely, whenever the handler takes the cached-summary path,
    the prompt [send_prompt] assembles for the same selection carries no
    document text. *)
Theorem cached_path_had_no_document (s : ProjectWindow) :
  uses_cached_summary s = true -> current_scene_text s = PNone.
Proof.
  unfold uses_cached_summary, current_scene_text.
  destruct (current_item s) as [it|]; [|reflexivity].
  intros H. apply andb_prop in H as [Hlvl _]. apply Z.ltb_lt in Hlvl.
  replace (2 <=? item_level it) with false by (symmetry; apply Z.leb_gt; exact Hlvl).
  reflexivity.
Qed.

(** ** Word count and item paths *)

Lemma split_from_concat (word s : pystr) :
  concat (split_from word s) = rev word ++ List.filter (fun c => negb (isspace c)) s.
Proof.
  revert word. induction s as [|c r IH]; intros word; cbn.
  - destruct word; cbn; rewrite ?app_nil_r; reflexivity.
  - destruct (isspace c) eqn:Hc; cbn.
    + destruct word as [|x word]; cbn; rewrite IH; reflexivity.
    + rewrite IH. cbn. rewrite <- app_assoc. reflexivity.
Qed.

Lemma split_from_words (word s : pystr) :
  forallb (fun c => negb (isspace c)) word = true ->
  forall w, In w (split_from word s) ->
            w <> [] /\ forallb (fun c => negb (isspace c)) w = true.
Proof.
  revert word. induction s as [|c r IH]; intros word Hword w Hin; cbn in Hin.
  - destruct word as [|x word]; [destruct Hin|].
    destruct Hin as [<-|[]]. split.
    + intros H. apply (f_equal (@length N)) in H.
      rewrite length_rev in H. discriminate H.
    + rewrite forallb_forall in *. intros y Hy. apply Hword, in_rev, Hy.
  - destruct (isspace c) eqn:Hc.
    + destruct word as [|x word].
      * apply (IH [] eq_refl w Hin).
      * destruct Hin as [<-|Hin]; [|apply (IH [] eq_refl w Hin)]. split.
        -- intros H. apply (f_equal (@length N)) in H.
           rewrite length_rev in H. discriminate H.
        -- rewrite forallb_forall in *. intros y Hy. apply Hword, in_rev, Hy.
    + apply (IH (c :: word)); [|exact Hin]. cbn. rewrite Hc, Hword. reflexivity.
Qed.

Lemma split_from_app (word a b : pystr) (ws : N) :
  isspace ws = true ->
  split_from word (a ++ ws :: b) = split_from word a ++ split b.
Proof.
  intros Hws. revert word. induction a as [|c a IH]; intros word; cbn.
  - rewrite Hws. destruct word; reflexivity.
  - destruct (isspace c).
    + destruct word; cbn; rewrite IH; reflexivity.
    + apply IH.
Qed.

Lemma split_from_nil (word s : pystr) :
  split_from word s = [] <-> word = [] /\ forallb isspace s = true.
Proof.
  revert word. induction s as [|c r IH]; intros word; cbn.
  - destruct word; split; intros H; try discriminate.
    + split; reflexivity.
    + reflexivity.
    + destruct H as [H _]; discriminate.
  - destruct (isspace c); cbn.
    + destruct word as [|x word].
      * apply IH.
      * split; [discriminate|]. intros [H _]; discriminate.
    + rewrite IH. split; [intros [H _]; discriminate | intros [_ H]; discriminate].
Qed.

(** [text.split()] loses no character but white space: its words
    are non-empty and free of white space, and joined together they are
    the text with the white space removed. *)
Lemma split_keeps_non_space (text : pystr) :
  concat (split text) = List.filter (fun c => negb (isspace c)) text /\
  forall w, In w (split text) ->
            w <> [] /\ forallb (fun c => negb (isspace c)) w = true.
Proof.
  split.
  - apply (split_from_concat [] text).
  - apply (split_from_words [] text). reflexivity.
Qed.

(** X11. The word count shown in the status bar is 0 exactly for a text of
    white space only, and it adds up across a white-space character. *)
Theorem word_count_additive (a b : pystr) (ws : N) :
  (word_count a = 0%nat <-> forallb isspace a = true) /\
  (isspace ws = true -> word_count (a ++ ws :: b) = (word_count a + word_count b)%nat).
Proof.
  unfold word_count, split. split.
  - rewrite length_zero_iff_nil, split_from_nil. split; [intros [_ H]; exact H | auto].
  - intros Hws. rewrite (split_from_app [] a b ws Hws), length_app. reflexivity.
Qed.

Lemma hierarchy_loop_app (item : TreeNode) (below : list pystr) :
  hierarchy_loop item below = hierarchy_loop item [] ++ below.
Proof.
  revert below. induction item as [text|text parent IH]; intros below; cbn.
  - reflexivity.
  - rewrite (IH (strip text :: below)), (IH [strip text]), <- app_assoc. reflexivity.
Qed.

(** X12. [get_item_hierarchy] returns the path from the root down to the
    item: a top-level item gives its own stripped text, any other item the
    path of its parent followed by its own stripped text. *)
Theorem get_item_hierarchy_path (text : pystr) (parent : TreeNode) :
  get_item_hierarchy (TopLevel text) = [strip text] /\
  get_item_hierarchy (Child text parent) = get_item_hierarchy parent ++ [strip text].
Proof.
  split; [reflexivity|]. unfold get_item_hierarchy. cbn. apply hierarchy_loop_app.
Qed.

(** ** The content view *)

Arguments key : simpl never.

Lemma for_each_ok {A B : Type} (f : A -> pyerror + B) (R : A -> B -> Prop) (l : list A) :
  Forall (fun x => exists y, f x = inr y /\ R x y) l ->
  exists ys, for_each f l = inr ys /\ Forall2 R l ys.
Proof.
  induction 1 as [|x rest (y & Hy & HR) _ (ys & Hys & HRs)]; cbn.
  - exists []. split; [reflexivity | constructor].
  - exists (y :: ys). rewrite Hy. cbn. rewrite Hys. cbn.
    split; [reflexivity | constructor; assumption].
Qed.

Lemma for_each_results {A B : Type} (f : A -> pyerror + B) (l : list A) (ys : list B) :
  for_each f l = inr ys -> Forall2 (fun x y => f x = inr y) l ys.
Proof.
  revert ys. induction l as [|x rest IH]; intros ys; cbn.
  - intros [= <-]. constructor.
  - destruct (f x) as [e|y] eqn:Hx; cbn; [discriminate|].
    destruct (for_each f rest) as [e|ys'] eqn:Hrest; cbn; [discriminate|].
    intros [= <-]. constructor; [exact Hx | apply IH; reflexivity].
Qed.

Lemma for_each_indexed_ok {A B : Type} (f : nat -> A -> pyerror + B) (l : list A) :
  forall idx,
    Forall (fun x => forall i, exists y, f i x = inr y) l ->
    exists ys, for_each_indexed f idx l = inr ys /\ length ys = length l.
Proof.
  induction l as [|x rest IH]; intros idx Hall; cbn.
  - exists []. split; reflexivity.
  - inversion Hall as [|? ? Hx Hrest]; subst.
    destruct (Hx idx) as (y & Hy). destruct (IH (S idx) Hrest) as (ys & Hys & Hlen).
    exists (y :: ys). rewrite Hy. cbn. rewrite Hys. cbn. split; [reflexivity|].
    cbn. rewrite Hlen. reflexivity.
Qed.

Lemma scene_color_in_range (index : nat) :
  exists c, scene_color index = inr c /\ In c COLORS.
Proof.
  unfold scene_color.
  pose proof (Nat.mod_upper_bound index (length COLORS)) as Hlt.
  specialize (Hlt ltac:(discriminate)).
  destruct (COLORS !! (index mod length COLORS)%nat) as [c|] eqn:Hc.
  - exists c. split; [reflexivity|]. apply list_elem_of_In. eapply list_elem_of_lookup_2, Hc.
  - apply lookup_ge_None in Hc. lia.
Qed.

Lemma for_each_along {A B C : Type} (g : B -> pyerror + C) (Q : A -> B -> Prop)
  (R : A -> C -> Prop) (l : list A) (ys : list B) :
  Forall2 Q l ys ->
  (forall x y, Q x y -> exists z, g y = inr z /\ R x z) ->
  exists zs, for_each g ys = inr zs /\ Forall2 R l zs.
Proof.
  intros HQ Hstep. induction HQ as [|x y l ys Hxy _ (zs & Hzs & HR)]; cbn.
  - exists []. split; [reflexivity | constructor].
  - destruct (Hstep x y Hxy) as (z & Hz & Hxz).
    exists (z :: zs). rewrite Hz. cbn. rewrite Hzs. cbn.
    split; [reflexivity | constructor; assumption].
Qed.

Lemma Forall2_map_eq {A B C : Type} (f : A -> C) (g : B -> C) (l : list A) (l' : list B) :
  Forall2 (fun x y => g y = f x) l l' -> map g l' = map f l.
Proof. induction 1; cbn; congruence. Qed.

Lemma Forall2_same_length {A B : Type} (R : A -> B -> Prop) (l : list A) (l' : list B) :
  Forall2 R l l' -> length l' = length l.
Proof. induction 1; cbn; congruence. Qed.

Lemma assoc_name_first (k2 : pystr) (x y : jval) :
  assoc (key "name") [(key "name", x); (k2, y)] = Some x.
Proof. reflexivity. Qed.

Lemma assoc_scenes_second (x y : jval) :
  assoc (key "scenes") [(key "name", x); (key "scenes", y)] = Some y.
Proof. reflexivity. Qed.

Lemma assoc_chapters_second (x y : jval) :
  assoc (key "chapters") [(key "name", x); (key "chapters", y)] = Some y.
Proof. reflexivity. Qed.

Lemma scene_typed_name (scene : jval) :
  scene_typed scene -> exists s, scene_name scene = inr (JStr s).
Proof.
  intros (entries & -> & Hname). unfold scene_name, py_get.
  destruct (assoc (key "name") entries) as [x|]; cbn.
  - destruct Hname as (s & ->). eauto.
  - eauto.
Qed.

Lemma scene_widgets_ok (names : list jval) :
  Forall is_text names ->
  exists ws, for_each_indexed new_SceneWidget 0 names = inr ws /\ length ws = length names.
Proof.
  intros Hall. apply for_each_indexed_ok.
  eapply Forall_impl; [exact Hall|]. intros x (s & ->) i.
  destruct (scene_color_in_range i) as (c & Hc & _).
  unfold new_SceneWidget. cbn. rewrite Hc. cbn. eauto.
Qed.

Lemma chapter_entry_typed (chapter : jval) :
  chapter_typed chapter ->
  exists entry, chapter_entry chapter = inr entry /\ chapter_built chapter entry.
Proof.
  intros [(entries & -> & Hname) (entries' & Heq & Hscenes)].
  injection Heq as <-.
  assert (Hnames : exists names,
             and_then (py_get (JDict entries) (key "scenes") (JList []))
               (fun v => and_then (py_iter v) (for_each scene_name)) = inr names /\
             Forall is_text names /\
             length names = length (children (JDict entries) (key "scenes"))).
  { unfold py_get, children. cbn.
    destruct (assoc (key "scenes") entries) as [x|]; cbn.
    - destruct Hscenes as (items & -> & Hitems). cbn.
      destruct (for_each_ok scene_name (fun _ n => is_text n) items) as (names & Hn & Hrel).
      { eapply Forall_impl; [exact Hitems|]. intros sc Hsc.
        destruct (scene_typed_name sc Hsc) as (s & Hs). exists (JStr s).
        split; [exact Hs | exists s; reflexivity]. }
      exists names. split; [exact Hn|]. split.
      + clear Hn Hitems. induction Hrel; constructor; assumption.
      + apply (Forall2_same_length _ _ _ Hrel).
    - exists []. repeat split. constructor. }
  destruct Hnames as (names & Hn & Htext & Hlen).
  assert (Hnm : exists s, py_get (JDict entries) (key "name") (JStr []) = inr (JStr s)).
  { unfold py_get. destruct (assoc (key "name") entries) as [x|]; cbn.
    - destruct Hname as (s & ->). eauto.
    - eauto. }
  destruct Hnm as (s & Hs).
  exists (JDict [(key "name", JStr s); (key "scenes", JList names)]). split.
  - unfold chapter_entry.
    destruct (py_get (JDict entries) (key "scenes") (JList [])) as [e|v];
      cbn [and_then] in Hn |- *; [discriminate|].
    destruct (py_iter v) as [e|l]; cbn [and_then] in Hn |- *; [discriminate|].
    rewrite Hn. cbn [and_then]. rewrite Hs. reflexivity.
  - destruct (scene_widgets_ok names Htext) as (ws & Hws & Hwlen).
    split.
    + exists (mkChapterWidget (JStr s) ws).
      unfold py_index. rewrite assoc_name_first, assoc_scenes_second. cbn.
      unfold new_ChapterWidget. cbn. rewrite Hws. cbn.
      split; [reflexivity | cbn [chapter_scenes]; rewrite Hwlen; exact Hlen].
    + exists s. unfold py_index. rewrite assoc_name_first. reflexivity.
Qed.

Lemma act_entry_typed (act : jval) :
  act_typed act ->
  exists entry, act_entry act = inr entry /\ act_built act entry.
Proof.
  intros [(entries & -> & _) (entries' & Heq & Hchapters)].
  injection Heq as <-.
  assert (Hch : exists chapters,
             and_then (py_get (JDict entries) (key "chapters") (JList []))
               (fun v => and_then (py_iter v) (for_each chapter_entry)) = inr chapters /\
             Forall2 chapter_built (children (JDict entries) (key "chapters")) chapters).
  { unfold py_get, children. cbn.
    destruct (assoc (key "chapters") entries) as [x|]; cbn.
    - destruct Hchapters as (items & -> & Hitems). cbn.
      apply for_each_ok.
      eapply Forall_impl; [exact Hitems|]. intros ch Hch. apply chapter_entry_typed, Hch.
    - exists []. split; [reflexivity | constructor]. }
  destruct Hch as (chapters & Hc & Hbuilt).
  set (name := default (JStr []) (assoc (key "name") entries)).
  exists (JDict [(key "name", name); (key "chapters", JList chapters)]). split.
  - unfold act_entry.
    destruct (py_get (JDict entries) (key "chapters") (JList [])) as [e|v];
      cbn [and_then] in Hc |- *; [discriminate|].
    destruct (py_iter v) as [e|l]; cbn [and_then] in Hc |- *; [discriminate|].
    rewrite Hc. reflexivity.
  - split.
    + destruct (for_each_along
                  (fun chap =>
                     and_then (py_index chap (key "name")) (fun chap_name =>
                     and_then (py_index chap (key "scenes")) (fun chap_scenes =>
                     new_ChapterWidget chap_name chap_scenes)))
                  chapter_built
                  (fun ch w => length (chapter_scenes w) = length (children ch (key "scenes")))
                  _ _ Hbuilt) as (ws & Hws & Hrel).
      { intros ch c [Hw _]. exact Hw. }
      exists (mkActWidget name ws).
      unfold py_index. rewrite assoc_name_first, assoc_chapters_second. cbn.
      unfold new_ActWidget. cbn. rewrite Hws. cbn. split; [reflexivity|].
      apply Forall2_map_eq. exact Hrel.
    + destruct (for_each_along
                  (fun chap => and_then (py_index chap (key "name")) qlabel)
                  chapter_built (fun _ _ => True) _ _ Hbuilt) as (labels & Hl & Hrel).
      { intros ch c [_ (label & Hlabel)]. exists label. split; [exact Hlabel | exact I]. }
      exists labels. unfold act_thumbnails, py_index.
      rewrite assoc_chapters_second. cbn. split; [exact Hl|].
      apply (Forall2_same_length _ _ _ Hrel).
Qed.

(** X13. On a well-typed project structure the content view is always built:
    one act widget per act, in it one chapter widget per chapter, in it one
    scene widget per scene, and one thumbnail per chapter.  Missing
    ["acts"], ["chapters"], ["scenes"] and ["name"] entries are no errors. *)
Theorem content_view_builds (structure : jval) :
  structure_typed structure ->
  exists data panel,
    get_content_view_data structure = inr data /\
    new_ContentViewPanel data = inr panel /\
    map (fun a => map (fun c => length (chapter_scenes c)) (act_chapters a))
        (act_widgets panel) =
      map (fun a => map (fun c => length (children c (key "scenes")))
                        (children a (key "chapters")))
          (children structure (key "acts")) /\
    length (thumbnails panel) =
      length (concat (map (fun a => children a (key "chapters"))
                          (children structure (key "acts")))).
Proof.
  intros (entries & -> & Hacts).
  assert (Hdata : exists data,
             get_content_view_data (JDict entries) = inr data /\
             Forall2 act_built (children (JDict entries) (key "acts")) data).
  { unfold get_content_view_data, py_get, children. cbn.
    destruct (assoc (key "acts") entries) as [x|]; cbn.
    - destruct Hacts as (items & -> & Hitems). cbn.
      apply for_each_ok.
      eapply Forall_impl; [exact Hitems|]. intros a Ha. apply act_entry_typed, Ha.
    - exists []. split; [reflexivity | constructor]. }
  destruct Hdata as (data & Hd & Hbuilt).
  destruct (for_each_along
              (fun act =>
                 and_then (py_index act (key "name")) (fun act_name =>
                 and_then (py_index act (key "chapters")) (fun act_chapters =>
                 new_ActWidget act_name act_chapters)))
              act_built
              (fun a w => map (fun c => length (chapter_scenes c)) (act_chapters w) =
                          map (fun c => length (children c (key "scenes")))
                              (children a (key "chapters")))
              _ _ Hbuilt) as (ws & Hws & Hrel).
  { intros a e [Hw _]. exact Hw. }
  destruct (for_each_along act_thumbnails act_built
              (fun a labels => length labels = length (children a (key "chapters")))
              _ _ Hbuilt) as (thumbs & Hth & Hthrel).
  { intros a e [_ Hl]. exact Hl. }
  exists data, (mkContentViewPanel ws (concat thumbs)).
  split; [exact Hd|]. split.
  - unfold new_ContentViewPanel. rewrite Hws. cbn. rewrite Hth. reflexivity.
  - cbn [act_widgets thumbnails]. split.
    + apply Forall2_map_eq. exact Hrel.
    + clear -Hthrel. induction Hthrel as [|a l acts rest Hl _ IH]; [reflexivity|].
      cbn. rewrite !length_app, IH, Hl. reflexivity.
Qed.

(** X15. Adjacent scenes never share a background, and the choice of colour
    never fails. *)
Theorem scene_colors_cycle (index : nat) :
  (exists c, scene_color index = inr c /\ In c COLORS) /\
  scene_color (index + 5) = scene_color index /\
  scene_color (S index) <> scene_color index.
Proof.
  split; [apply scene_color_in_range|].
  unfold scene_color. change (length COLORS) with 5%nat. split.
  - replace ((index + 5) mod 5)%nat with (index mod 5)%nat; [reflexivity|].
    rewrite <- (Nat.Div0.add_mod_idemp_r index 5 5), Nat.Div0.mod_same, Nat.add_0_r.
    reflexivity.
  - replace (S index mod 5)%nat with ((index mod 5 + 1) mod 5)%nat
      by (rewrite Nat.Div0.add_mod_idemp_l, Nat.add_1_r; reflexivity).
    pose proof (Nat.mod_upper_bound index 5 ltac:(discriminate)) as Hlt.
    destruct (index mod 5)%nat as [|[|[|[|[|k]]]]]; cbn; try discriminate; lia.
Qed.

Lemma for_each_at_most_TypeError {A B : Type} (f : A -> pyerror + B) (l : list A) :
  Forall (fun x => raises_at_most_TypeError (f x)) l ->
  raises_at_most_TypeError (for_each f l).
Proof.
  induction 1 as [|x rest Hx _ IH]; cbn; [exact I|].
  destruct (f x) as [e|y]; cbn; [exact Hx|].
  destruct (for_each f rest) as [e|ys]; cbn; [exact IH | exact I].
Qed.

Lemma scene_widgets_at_most_TypeError (names : list jval) (idx : nat) :
  raises_at_most_TypeError (for_each_indexed new_SceneWidget idx names).
Proof.
  revert idx. induction names as [|x rest IH]; intros idx; cbn; [exact I|].
  unfold new_SceneWidget at 1.
  destruct (qlabel x) as [e|label] eqn:Hq; cbn.
  - destruct x; cbn in Hq; try discriminate; injection Hq as <-; reflexivity.
  - destruct (scene_color_in_range idx) as (c & -> & _). cbn.
    specialize (IH (S idx)).
    destruct (for_each_indexed new_SceneWidget (S idx) rest); cbn; [exact IH | exact I].
Qed.

Lemma Forall2_right {A B : Type} (f : A -> pyerror + B) (P : B -> Prop) (l : list A)
  (ys : list B) :
  (forall x y, f x = inr y -> P y) ->
  Forall2 (fun x y => f x = inr y) l ys -> Forall P ys.
Proof. intros Hstep. induction 1; constructor; eauto. Qed.

Lemma chapter_entry_shaped (chapter entry : jval) :
  chapter_entry chapter = inr entry -> chapter_shaped entry.
Proof.
  unfold chapter_entry.
  destruct (py_get chapter (key "scenes") (JList [])) as [e|v]; cbn [and_then]; [discriminate|].
  destruct (py_iter v) as [e|l]; cbn [and_then]; [discriminate|].
  destruct (for_each scene_name l) as [e|names]; cbn [and_then]; [discriminate|].
  destruct (py_get chapter (key "name") (JStr [])) as [e|name]; cbn [and_then]; [discriminate|].
  intros [= <-]. exists name, names. reflexivity.
Qed.

Lemma act_entry_shaped (act entry : jval) :
  act_entry act = inr entry -> act_shaped entry.
Proof.
  unfold act_entry.
  destruct (py_get act (key "chapters") (JList [])) as [e|v]; cbn [and_then]; [discriminate|].
  destruct (py_iter v) as [e|l]; cbn [and_then]; [discriminate|].
  destruct (for_each chapter_entry l) as [e|chapters] eqn:Hch; cbn [and_then]; [discriminate|].
  destruct (py_get act (key "name") (JStr [])) as [e|name]; cbn [and_then]; [discriminate|].
  intros [= <-]. exists name, chapters. split; [reflexivity|].
  eapply Forall2_right; [|apply for_each_results, Hch].
  apply chapter_entry_shaped.
Qed.

(** X14. Whatever the project structure holds, the data that
    [_get_content_view_data] returns has every key the widgets subscript:
    building the panel from it raises no [KeyError] (nor
    [AttributeError], nor [IndexError]); the one failure left is a
    [TypeError] for a name that is no string. *)
Theorem content_view_no_KeyError (structure : jval) (data : list jval) :
  get_content_view_data structure = inr data ->
  Forall act_shaped data /\
  raises_at_most_TypeError (new_ContentViewPanel data).
Proof.
  intros Hdata.
  assert (Hshape : Forall act_shaped data).
  { unfold get_content_view_data in Hdata.
    destruct (py_get structure (key "acts") (JList [])) as [e|v]; cbn [and_then] in Hdata;
      [discriminate|].
    destruct (py_iter v) as [e|acts]; cbn [and_then] in Hdata; [discriminate|].
    eapply Forall2_right; [|apply for_each_results, Hdata].
    apply act_entry_shaped. }
  split; [exact Hshape|].
  unfold new_ContentViewPanel.
  match goal with |- raises_at_most_TypeError (and_then (for_each ?f data) _) =>
    pose proof (for_each_at_most_TypeError f data) as Hacts end.
  match goal with |- raises_at_most_TypeError (and_then _ (fun acts =>
        and_then (for_each ?g data) _)) =>
    pose proof (for_each_at_most_TypeError g data) as Hthumbs end.
  match type of Hacts with ?P -> _ => assert (H1 : P) end.
  { eapply Forall_impl; [exact Hshape|].
    intros entry (name & chapters & -> & Hchapters).
    unfold py_index. rewrite assoc_name_first, assoc_chapters_second. cbn [and_then].
    unfold new_ActWidget. cbn [py_iter and_then].
    match goal with |- raises_at_most_TypeError (and_then (for_each ?f chapters) _) =>
      pose proof (for_each_at_most_TypeError f chapters) as Hch end.
    match type of Hch with ?P -> _ => assert (H2 : P) end.
    { eapply Forall_impl; [exact Hchapters|].
      intros c (cname & scenes & ->).
      unfold py_index. rewrite assoc_name_first, assoc_scenes_second. cbn [and_then].
      unfold new_ChapterWidget. cbn [py_iter and_then].
      pose proof (scene_widgets_at_most_TypeError scenes 0) as Hs.
      destruct (for_each_indexed new_SceneWidget 0 scenes); cbn; [exact Hs | exact I]. }
    specialize (Hch H2).
    match goal with |- raises_at_most_TypeError (and_then ?r _) =>
      destruct r; cbn; [exact Hch | exact I] end. }
  match type of Hthumbs with ?P -> _ => assert (H3 : P) end.
  { eapply Forall_impl; [exact Hshape|].
    intros entry (name & chapters & -> & Hchapters).
    unfold act_thumbnails, py_index. rewrite assoc_chapters_second. cbn [py_iter and_then].
    apply for_each_at_most_TypeError.
    eapply Forall_impl; [exact Hchapters|].
    intros c (cname & scenes & ->). rewrite assoc_name_first. cbn [and_then].
    destruct cname; cbn; try exact I; reflexivity. }
  specialize (Hacts H1). specialize (Hthumbs H3).
  match goal with |- raises_at_most_TypeError (and_then ?r _) =>
    destruct r; cbn [and_then]; [exact Hacts|] end.
  match goal with |- raises_at_most_TypeError (and_then ?r _) =>
    destruct r; cbn [and_then]; [exact Hthumbs | exact I] end.
Qed.

(** ** The POV character dropdown *)

Lemma entry_names_non_empty (entries : list jval) (names : list pystr) :
  entry_names entries = inr names -> Forall (fun n => n <> []) names.
Proof.
  revert names. induction entries as [|entry rest IH]; intros names; cbn [entry_names].
  - intros [= <-]. constructor.
  - destruct (py_get entry (key "name") (JStr [])) as [e|name]; cbn [and_then]; [discriminate|].
    destruct (py_strip name) as [e|stripped]; cbn [and_then]; [discriminate|].
    destruct stripped as [|c stripped]; [apply IH|].
    destruct (entry_names rest) as [e|names']; cbn [and_then]; [discriminate|].
    intros [= <-]. constructor; [discriminate | apply IH; reflexivity].
Qed.

Lemma characters_loop_non_empty (categories : list jval) (names : list pystr) :
  characters_loop categories = inr names -> Forall (fun n => n <> []) names.
Proof.
  revert names. induction categories as [|cat rest IH]; intros names; cbn [characters_loop].
  - intros [= <-]. constructor.
  - destruct (py_get cat (key "name") (JStr [])) as [e|name]; cbn [and_then]; [discriminate|].
    destruct (py_lower name) as [e|lowered]; cbn [and_then]; [discriminate|].
    destruct (bool_decide (lowered = key "characters")); [|apply IH].
    destruct (py_get cat (key "entries") (JList [])) as [e|v]; cbn [and_then]; [discriminate|].
    destruct (py_iter v) as [e|entries]; cbn [and_then]; [discriminate|].
    apply entry_names_non_empty.
Qed.

(** X16. The dropdown always offers at least one character, none of them
    empty, followed by the "Custom..." entry; a compendium that is
    missing, unreadable or ill-formed, or has no named character, gives
    Alice, Bob and Charlie. *)
Theorem dropdown_never_empty (compendium : option (option jval)) :
  (exists names,
      dropdown_characters compendium = names ++ [gettext "Custom..."] /\
      names <> [] /\ Forall (fun n => n <> []) names) /\
  ((forall data names, compendium = Some (Some data) ->
                       characters_of data = inr names -> names = []) ->
   dropdown_characters compendium =
     [key "Alice"; key "Bob"; key "Charlie"; gettext "Custom..."]).
Proof.
  assert (Hdefault : Forall (fun n : pystr => n <> []) [key "Alice"; key "Bob"; key "Charlie"]).
  { repeat constructor; discriminate. }
  unfold dropdown_characters. split.
  - destruct compendium as [[data|]|];
      try (lazy beta iota zeta; eexists; split; [reflexivity|]; split; [discriminate | exact Hdefault]).
    destruct (characters_of data) as [e|names] eqn:Hc;
      try (lazy beta iota zeta; eexists; split; [reflexivity|]; split; [discriminate | exact Hdefault]).
    destruct names as [|n names];
      try (lazy beta iota zeta; eexists; split; [reflexivity|]; split; [discriminate | exact Hdefault]).
    lazy beta iota zeta. eexists; split; [reflexivity|]. split; [discriminate|].
    unfold characters_of in Hc.
    destruct (py_get data (key "categories") (JList [])) as [e|v]; cbn [and_then] in Hc;
      [discriminate|].
    destruct (py_iter v) as [e|cats]; cbn [and_then] in Hc; [discriminate|].
    apply (characters_loop_non_empty cats _ Hc).
  - intros Hnone. destruct compendium as [[data|]|]; try reflexivity.
    destruct (characters_of data) as [e|names] eqn:Hc; [reflexivity|].
    rewrite (Hnone data names eq_refl Hc). reflexivity.
Qed.

Lemma find_from_missing (text : pystr) (items : list pystr) (i : Z) :
  ~ In text items -> find_from text items i = -1.
Proof.
  revert i. induction items as [|x rest IH]; intros i Hnot; cbn; [reflexivity|].
  destruct (bool_decide_reflect (x = text)) as [->|_].
  - destruct Hnot. left. reflexivity.
  - apply IH. intros H. apply Hnot. right. exact H.
Qed.

Lemma find_from_found (text : pystr) (items : list pystr) (i : Z) :
  In text items ->
  i <= find_from text items i < i + Z.of_nat (length items) /\
  items !! Z.to_nat (find_from text items i - i) = Some text.
Proof.
  revert i. induction items as [|x rest IH]; intros i Hin; [destruct Hin|].
  cbn [find_from].
  destruct (bool_decide_reflect (x = text)) as [->|Hne].
  - split; [cbn [length]; lia|]. rewrite Z.sub_diag. reflexivity.
  - destruct Hin as [Heq|Hin]; [destruct (Hne Heq)|].
    destruct (IH (i + 1) Hin) as [Hrange Hlookup]. split; [cbn [length]; lia|].
    replace (Z.to_nat (find_from text rest (i + 1) - i))
      with (S (Z.to_nat (find_from text rest (i + 1) - (i + 1)))) by lia.
    exact Hlookup.
Qed.

(** X17. After the compendium changed, the dropdown is refilled and the
    previous choice restored: the selection is always a valid entry; it
    is the previous character when that one is still offered, and the
    first entry otherwise. *)
Theorem refilled_dropdown_selection (compendium : option (option jval))
  (previous_pov : pystr) (combo : ComboBox) :
  let refilled := update_pov_character_dropdown compendium combo in
  let restored := restore_pov_character previous_pov refilled in
  0 <= combo_index restored < count restored /\
  (In previous_pov (combo_items refilled) ->
   currentText restored = previous_pov /\ combo_items restored = combo_items refilled) /\
  (~ In previous_pov (combo_items refilled) -> combo_index restored = 0).
Proof.
  intros refilled restored.
  assert (Hcount : 2 <= count refilled).
  { destruct (dropdown_never_empty compendium) as [(names & Hitems & Hne & _) _].
    unfold count, refilled, update_pov_character_dropdown. cbn [combo_items].
    rewrite Hitems, length_app. destruct names; [congruence|]. cbn [length]. lia. }
  subst restored. unfold restore_pov_character.
  destruct (List.in_dec (fun x y : list N => decide (x = y)) previous_pov
              (combo_items refilled)) as [Hin|Hnot].
  - destruct (find_from_found previous_pov (combo_items refilled) 0 Hin) as [Hrange Hlookup].
    fold (findText refilled previous_pov) in Hrange, Hlookup.
    rewrite Z.sub_0_r in Hlookup.
    replace (0 <=? findText refilled previous_pov) with true by (symmetry; apply Z.leb_le; lia).
    unfold setCurrentIndex, count in *. cbn [combo_index combo_items].
    replace ((0 <=? findText refilled previous_pov)
             && (findText refilled previous_pov <? Z.of_nat (length (combo_items refilled))))
      with true by (symmetry; apply andb_true_iff; split; [apply Z.leb_le | apply Z.ltb_lt]; lia).
    split; [lia|]. split; [|intros Hnot; destruct (Hnot Hin)].
    intros _. split; [|reflexivity].
    unfold currentText, itemText. cbn [combo_index combo_items].
    replace (0 <=? findText refilled previous_pov) with true by (symmetry; apply Z.leb_le; lia).
    apply (f_equal (default [])) in Hlookup. exact Hlookup.
  - assert (Hmissing : findText refilled previous_pov = -1)
      by apply (find_from_missing _ _ 0 Hnot).
    rewrite Hmissing. change (0 <=? -1) with false. cbv iota.
    assert (Hgoal : forall c : ComboBox,
               1 <= count c ->
               0 <= combo_index (setCurrentIndex 0 c) < count (setCurrentIndex 0 c) /\
               combo_index (setCurrentIndex 0 c) = 0).
    { intros c Hc. unfold setCurrentIndex, count in *. cbn [combo_index combo_items].
      replace (0 <? Z.of_nat (length (combo_items c))) with true
        by (symmetry; apply Z.ltb_lt; lia).
      cbn. lia. }
    match goal with |- 0 <= combo_index ?r < _ /\ _ =>
      assert (Hres : 0 <= combo_index r < count r /\ combo_index r = 0) end.
    { destruct ((count refilled =? 2)
                && negb (bool_decide (itemText refilled 0 = gettext "Custom..."))) eqn:Htwo.
      - apply Hgoal. lia.
      - destruct (2 <? count refilled) eqn:Hmany.
        + destruct (findText refilled (gettext "-- Select Character --") =? -1);
            apply Hgoal; unfold count, insertItem_front in *; cbn [combo_items length]; lia.
        + apply Z.ltb_ge in Hmany.
          assert (Htwo' : count refilled = 2) by lia.
          rewrite Htwo' in Htwo. cbn [Z.eqb Pos.eqb andb] in Htwo.
          apply negb_false_iff, bool_decide_eq_true in Htwo.
          assert (Hfirst : findText refilled (gettext "Custom...") = 0).
          { unfold findText, itemText, count in *. cbn [Z.leb Z.compare Z.to_nat] in Htwo.
            destruct (combo_items refilled) as [|x rest]; [cbn in Htwo'; lia|].
            change (x = gettext "Custom...") in Htwo. subst x. cbn [find_from].
            rewrite bool_decide_eq_true_2 by reflexivity. reflexivity. }
          rewrite Hfirst. apply Hgoal. lia. }
    destruct Hres as [Hrange Hidx].
    split; [exact Hrange|]. split; [intros Hin; destruct (Hnot Hin) | intros _; exact Hidx].
Qed.


(** ** Saving and closing *)

Lemma autosave_scene_cases (item : option TreeNode) (s : Editing) :
  (saves item s = false /\ autosave_scene item s = s) \/
  (exists i,
      save_target item s = Some i /\
      saves item s = true /\ 2 <= get_item_level i /\
      autosave_scene item s = save_and_report i true "Scene autosaved" s).
Proof.
  unfold saves, autosave_scene, save_target.
  destruct (match item with Some i => Some i | None => tree_current s end) as [i|];
    [|left; split; reflexivity].
  destruct (Z.ltb_spec (get_item_level i) 2) as [Hlt|Hge]; cbn [negb andb];
    [left; split; reflexivity|].
  destruct (strip (editor_html s)); [left; split; reflexivity|].
  right. exists i. repeat split. exact Hge.
Qed.


(** X19. Closing the window is never refused: [check_unsaved_changes] always
    answers [True], so the event is accepted and the settings written
    whatever the autosave did, also when nothing could be saved and the
    changes are still unsaved. *)
Theorem closeEvent_always_accepts (s : Editing) :
  exists added,
    save_calls (closeEvent s) = save_calls s ++ added ++ [WriteSettings; EventAccept] /\
    ~ In EventIgnore added /\
    (saves None s = false ->
     unsaved_changes (closeEvent s) = unsaved_changes s /\
     forall hierarchy content expected, ~ In (SaveScene hierarchy content expected) added).
Proof.
  unfold closeEvent, check_unsaved_changes. cbn [negb].
  set (x := if unsaved_changes s then autosave_scene None s else s).
  assert (Hx : exists evs,
             save_calls x = save_calls s ++ evs /\ ~ In EventIgnore evs /\
             (saves None s = false -> x = s /\ evs = [])).
  { subst x. destruct (unsaved_changes s).
    - destruct (autosave_scene_cases None s) as [[Hno ->]|(i & _ & Hyes & Hlvl & ->)].
      + exists []. rewrite app_nil_r. repeat split. intros [].
      + unfold save_and_report.
        destruct (truthy (save_scene (get_item_hierarchy i) (editor_html s) true)); cbn.
        * eexists. rewrite <- app_assoc. split; [reflexivity|]. split; [|congruence].
          cbn. intros [H|[H|[]]]; discriminate H.
        * eexists. split; [reflexivity|]. split; [|congruence].
          cbn. intros [H|[]]; discriminate H.
    - exists []. rewrite app_nil_r. repeat split. intros []. }
  destruct Hx as (evs & Hcalls & Hignore & Hsame).
  assert (Htimer : exists stop,
             save_calls
               (called EventAccept
                  (called WriteSettings
                     match autosave_timer x with
                     | Some true => called AutosaveTimerStop x
                     | _ => x
                     end)) = save_calls x ++ stop ++ [WriteSettings; EventAccept] /\
             unsaved_changes
               (called EventAccept
                  (called WriteSettings
                     match autosave_timer x with
                     | Some true => called AutosaveTimerStop x
                     | _ => x
                     end)) = unsaved_changes x /\
             (stop = [] \/ stop = [AutosaveTimerStop])).
  { destruct (autosave_timer x) as [[|]|]; cbn.
    - exists [AutosaveTimerStop]. rewrite <- !app_assoc. cbn. auto.
    - exists []. rewrite <- !app_assoc. cbn. auto.
    - exists []. rewrite <- !app_assoc. cbn. auto. }
  destruct Htimer as (stop & -> & -> & Hstop).
  exists (evs ++ stop). rewrite Hcalls, <- !app_assoc. split; [reflexivity|]. split.
  - intros Hin. apply in_app_or in Hin as [Hin|Hin]; [exact (Hignore Hin)|].
    destruct Hstop as [->| ->]; cbn in Hin; [destruct Hin|].
    destruct Hin as [H|[]]; discriminate H.
  - intros Hno. destruct (Hsame Hno) as [-> ->]. split; [reflexivity|].
    intros h c e Hin. cbn in Hin.
    destruct Hstop as [->| ->]; cbn in Hin; [destruct Hin|].
    destruct Hin as [H|[]]; discriminate H.
Qed.

End Methods.




(** ** The methods on concrete windows *)

Lemma send_prompt_refuses_blank_witness :
  forallb isspace (prompt_input blank_window) = true /\
  exists title text,
    send_prompt demo_assemble id demo_thread_exit blank_window =
      Done (record (MessageBoxWarning title text) blank_window).
Proof.
  split; [reflexivity|].
  apply (send_prompt_refuses_blank_or_unselected demo_assemble id demo_thread_exit blank_window).
  left. reflexivity.
Defined.

Lemma cleanup_worker_bounded_grace_witness :
  worker busy_window = Some hung_worker /\ running hung_worker = true /\
  exists s' w',
    cleanup_worker busy_window = Done s' /\ worker s' = None /\
    detached s' = w' :: detached busy_window /\ running w' = true /\
    (blocked_ms s' <= blocked_ms busy_window + 5000)%N.
Proof.
  split; [reflexivity|]. split; [reflexivity|].
  destruct (cleanup_worker_bounded_grace busy_window hung_worker)
    as (s' & w' & H1 & H2 & H3 & _ & _ & _ & _ & _ & _ & H4 & H5 & _).
  - reflexivity.
  - reflexivity.
  - repeat split; discriminate.
  - exists s', w'. repeat split; assumption.
Defined.






Lemma truncated_story_never_retries_witness :
  encoding scene_window = None /\
  retry_with_truncated_story demo_assemble demo_gettext demo_encoding demo_thread_exit
    scene_window = Raised AttributeError scene_window.
Proof.
  split; [reflexivity|].
  apply (truncated_story_never_retries demo_assemble demo_gettext demo_encoding
           demo_thread_exit scene_window (demo_config 2000) 2000); reflexivity.
Defined.

(** C10, on the code.  With a budget of 1 the halved budget is 0 and the
    slice is the whole token sequence, and without a ["max_tokens"] entry
    the budget is 2000; but the retry is not reached: the lookup of
    [self.encoding] raises first. *)
Theorem tiny_budget_truncation_raises :
  half_budget (dict_get (demo_config 1) "max_tokens" (PInt 2000)) = inr 0 /\
  slice_from (- 0) (encode demo_encoding (editor_text tiny_budget_window)) =
    encode demo_encoding (editor_text tiny_budget_window) /\
  dict_get (delete "max_tokens" (demo_config 1)) "max_tokens" (PInt 2000) = PInt 2000 /\
  retry_with_truncated_story demo_assemble demo_gettext demo_encoding demo_thread_exit
    tiny_budget_window = Raised AttributeError tiny_budget_window.
Proof. repeat split. Qed.

(** ** The further properties on concrete inputs *)

Lemma retry_with_summary_keeps_prior_worker_witness :
  worker busy_window = Some hung_worker /\
  exists s' nw,
    retry_with_summary demo_assemble demo_gettext demo_thread_exit (PStr [83%N]) busy_window
      = Done s' /\
    worker s' = Some nw /\ detached s' = [hung_worker].
Proof.
  split; [reflexivity|].
  destruct (retry_with_summary_keeps_prior_worker demo_assemble demo_gettext demo_thread_exit
              busy_window hung_worker (PStr [83%N]) (demo_config 2000))
    as (s' & nw & H1 & H2 & _ & H4 & _); try reflexivity.
  exists s', nw. repeat split; assumption.
Defined.

Lemma stale_finished_cancels_retry_witness :
  worker busy_chapter_window = Some hung_worker /\
  exists s1 s2,
    handle_token_limit_error demo_assemble demo_gettext demo_thread_exit []
      busy_chapter_window = Done s1 /\
    emit_finished demo_assemble demo_gettext demo_encoding demo_thread_exit id
      Dismiss hung_worker s1 = Done s2 /\
    worker s2 = None.
Proof.
  split; [reflexivity|].
  destruct (stale_finished_cancels_retry demo_assemble demo_gettext demo_encoding
              demo_thread_exit id busy_chapter_window [] hung_worker demo_chapter
              (PStr [83%N]) (demo_config 2000))
    as (s1 & s2 & r & H1 & H2 & H3 & _); try reflexivity.
  exists s1, s2. repeat split; assumption.
Defined.

Lemma cleanup_worker_skips_disconnects_witness :
  data_received idle_worker = [] /\
  exists s',
    cleanup_worker idle_window = Done s' /\
    detached s' = [set_delete_later idle_worker] /\
    finished (set_delete_later idle_worker) = [Slot_on_finished].
Proof.
  split; [reflexivity|].
  eexists. split.
  - apply (cleanup_worker_skips_disconnects idle_window idle_worker); reflexivity.
  - split; reflexivity.
Defined.


Lemma non_numeric_budget_raises_witness :
  retry_with_truncated_story demo_assemble demo_gettext demo_encoding demo_thread_exit
    unset_budget_window = Raised TypeError unset_budget_window.
Proof.
  apply (non_numeric_budget_raises demo_assemble demo_gettext demo_encoding demo_thread_exit
           unset_budget_window (<["max_tokens" := PNone]> (demo_config 2000)) PNone).
  - reflexivity.
  - reflexivity.
  - intros n. discriminate.
Defined.

Lemma recovery_without_prompt_raises_witness :
  prose_prompt (new_window demo_beats demo_story (Some demo_chapter) None None) = None /\
  handle_token_limit_error demo_assemble demo_gettext demo_thread_exit []
    (new_window demo_beats demo_story (Some demo_chapter) None None) =
    Raised AttributeError
      (set_send_enabled true (new_window demo_beats demo_story (Some demo_chapter) None None)).
Proof.
  split; [reflexivity|].
  apply (recovery_without_prompt_raises demo_assemble demo_gettext demo_encoding
           demo_thread_exit (new_window demo_beats demo_story (Some demo_chapter) None None)
           [] Dismiss); reflexivity.
Defined.

Lemma scene_error_never_retries_witness :
  current_item scene_window = Some demo_scene /\
  exists s',
    handle_token_limit_error demo_assemble demo_gettext demo_thread_exit [] scene_window
      = Done s' /\
    worker s' = None.
Proof.
  split; [reflexivity|].
  destruct (scene_error_never_retries demo_assemble demo_gettext demo_thread_exit
              scene_window [] demo_scene) as [_ H]; [reflexivity | cbn; lia |].
  eexists. split; [exact H | reflexivity].
Defined.

Lemma cached_path_had_no_document_witness :
  uses_cached_summary chapter_window = true /\ current_scene_text chapter_window = PNone.
Proof.
  split; [reflexivity|].
  apply (cached_path_had_no_document chapter_window). reflexivity.
Defined.

Lemma demo_structure_typed : structure_typed demo_structure.
Proof.
  unfold demo_structure.
  repeat first
    [ exact I
    | reflexivity
    | progress (cbv [structure_typed act_typed chapter_typed scene_typed optional_entry
                     is_list_of is_text])
    | match goal with
      | |- _ /\ _ => split
      | |- exists _, _ => eexists
      | |- Forall _ _ => constructor
      | |- match assoc ?k ?e with _ => _ end =>
          let r := eval vm_compute in (assoc k e) in change (assoc k e) with r; cbv iota beta
      end ].
Qed.

Lemma content_view_builds_witness :
  exists data panel,
    get_content_view_data demo_structure = inr data /\
    new_ContentViewPanel data = inr panel /\
    map (fun a => map (fun c => length (chapter_scenes c)) (act_chapters a))
        (act_widgets panel) = [[2%nat]] /\
    length (thumbnails panel) = 1%nat.
Proof.
  destruct (content_view_builds demo_structure demo_structure_typed)
    as (data & panel & H1 & H2 & H3 & H4).
  exists data, panel. split; [exact H1|]. split; [exact H2|]. split.
  - rewrite H3. reflexivity.
  - rewrite H4. reflexivity.
Defined.

Lemma content_view_no_KeyError_witness :
  exists data,
    get_content_view_data demo_structure = inr data /\
    Forall act_shaped data /\
    raises_at_most_TypeError (new_ContentViewPanel data).
Proof.
  eexists. split; [reflexivity|].
  apply (content_view_no_KeyError demo_structure). reflexivity.
Defined.
